(** * jpeg2dct: the build script [setup.py]

    A shallow embedding of the capability probes and of the extension build
    orchestration of [setup.py], and the properties of its fallback chains.

    The script talks to a toolchain, to the file system, to the process
    environment and to two optional Python packages.  All of these are
    gathered in a record [world] of oracles; the script itself is a
    computation in a state-and-exception monad whose state holds the three
    module-level [Extension] objects and a trace of the observable actions
    (trial compiles, library loads, extension builds, messages on stderr).
    The trials of a probe write, compile, link and load files at the same
    paths one candidate after the other, so the compiler, the linker and the
    loader answer from the call and from the trace of the run up to it. *)

From Stdlib Require Import Ascii String List Bool Arith Lia.
From stdpp Require Import base strings gmap list.

Open Scope string_scope.
Open Scope list_scope.

(** ** Python strings *)

Module PyStr.

Definition nl : string := String (ascii_of_nat 10) EmptyString.
Definition dq : string := String (ascii_of_nat 34) EmptyString.

(** [textwrap.dedent] of a literal whose lines are given without their
    common indentation: every line is terminated by a newline. *)
Fixpoint unlines (ls : list string) : string :=
  match ls with
  | [] => EmptyString
  | l :: ls' => l +:+ nl +:+ unlines ls'
  end.

(** [a < b] on [str]: lexicographic order on the code points. *)
Fixpoint str_lt (a b : string) : bool :=
  match a, b with
  | EmptyString, EmptyString => false
  | EmptyString, String _ _ => true
  | String _ _, EmptyString => false
  | String x a', String y b' =>
      if Nat.ltb (nat_of_ascii x) (nat_of_ascii y) then true
      else if Nat.ltb (nat_of_ascii y) (nat_of_ascii x) then false
      else str_lt a' b'
  end.

(** [needle in hay] *)
Fixpoint str_in (needle hay : string) : bool :=
  String.prefix needle hay ||
  match hay with
  | EmptyString => false
  | String _ hay' => str_in needle hay'
  end.

(** Truth value of a [str]: only the empty string is false. *)
Definition truthy (s : string) : bool :=
  match s with EmptyString => false | String _ _ => true end.

Definition startswith_sep (s : string) : bool :=
  match s with String "/" _ => true | _ => false end.

Fixpoint endswith_sep (s : string) : bool :=
  match s with
  | EmptyString => false
  | String c EmptyString => if Ascii.eqb c "/" then true else false
  | String _ s' => endswith_sep s'
  end.

(** [os.path.join a b] (posixpath, two components) *)
Definition path_join (a b : string) : string :=
  if startswith_sep b then b
  else if negb (truthy a) || endswith_sep a then a +:+ b
  else a +:+ "/" +:+ b.

End PyStr.
Import PyStr.

(** ** Exceptions, extensions, the outside world *)

(** The exceptions the script meets.  [OtherException cls msg] is an
    instance of [Exception] of any other class ([OSError], [NotFoundError],
    ...); [NonException cls msg] is an exception that derives from
    [BaseException] without being an [Exception]: [KeyboardInterrupt],
    [SystemExit], [GeneratorExit]. *)
Inductive exn : Type :=
| CompileError (msg : string)
| LinkError (msg : string)
| DistutilsPlatformError (msg : option string)
| ImportError (msg : string)
| AttributeError (attr : string)
| OtherException (cls msg : string)
| NonException (cls msg : string).

(** The handler [except (CompileError, LinkError)]. *)
Definition is_compile_or_link_error (e : exn) : bool :=
  match e with
  | CompileError _ | LinkError _ => true
  | _ => false
  end.

(** The handler [except Exception]. *)
Definition is_Exception (e : exn) : bool :=
  match e with NonException _ _ => false | _ => true end.

Definition is_platform_error (e : exn) : bool :=
  match e with DistutilsPlatformError _ => true | _ => false end.

(** The attributes of a setuptools [Extension] that the script assigns. *)
Record Extension : Type := mkExtension {
  name : string;
  sources : list string;
  define_macros : list (string * string);
  include_dirs : list string;
  extra_compile_args : list string;
  extra_link_args : list string;
  library_dirs : list string;
  libraries : list string
}.

(** [Extension(name, [])] *)
Definition new_Extension (n : string) : Extension :=
  mkExtension n [] [] [] [] [] [] [].

(** The three module-level extension objects. *)
Inductive ext_id : Type := Common_lib | Numpy_lib | Tf_lib.

(** Arguments of one call of [test_compile]; [None] is an omitted keyword. *)
Record test_compile_call : Type := mkCall {
  tc_name : string;
  tc_code : string;
  tc_libraries : option (list string);
  tc_include_dirs : option (list string);
  tc_library_dirs : option (list string);
  tc_macros : option (list (string * string));
  tc_extra_preargs : option (list string)
}.

Record compile_args : Type := mkCompileArgs {
  ca_sources : list string;
  ca_extra_preargs : option (list string);
  ca_include_dirs : option (list string);
  ca_macros : option (list (string * string))
}.

Record link_args : Type := mkLinkArgs {
  la_objects : list string;
  la_output : string;
  la_libraries : option (list string);
  la_library_dirs : option (list string)
}.

(** The [tensorflow] module as the script sees it.  An attribute that the
    installed version does not expose is [None]: reading it raises
    [AttributeError] (see [getattr] below). *)
Record tensorflow : Type := mkTensorflow {
  tf_version : option string;
  get_compile_flags : option (list string);
  get_link_flags : option (list string);
  get_include : string;
  get_lib : string
}.

(** [import m] binds the module or raises [ImportError]. *)
Inductive import_result (A : Type) : Type :=
| ImportFails (msg : string)
| Imported (m : A).
Arguments ImportFails {A} msg.
Arguments Imported {A} m.

(** The observable actions.  [EvTestCompile c] records a call of
    [test_compile] with the arguments [c]; the actions of the call itself
    (directory creation, source file, compile and link steps) follow it.
    [EvPrintStderr t] is [print(t, file=sys.stderr)]. *)
Inductive event : Type :=
| EvImport (module : string)
| EvTestCompile (c : test_compile_call)
| EvMakedirs (path : string)
| EvWriteFile (path code : string)
| EvCompile (a : compile_args)
| EvLink (a : link_args)
| EvLoadOpLibrary (lib_file : string)
| EvBuildExtension (id : ext_id) (ext : Extension)
| EvPrintStderr (text : string).

(** Everything the script asks of its surroundings.  A call that can raise
    answers [Some e] when it raises [e] and [None] when it returns.  The
    compiler, the linker and the loader read files that the run itself has
    written, compiled or linked, and a file of one name is made anew for
    every candidate of a probe: their answer is a function of the arguments
    of the call and of the trace of the run before the call. *)
Record world : Type := mkWorld {
  sys_platform : string;
  os_environ : gmap string string;
  build_temp : string;
  path_exists : string -> bool;
  object_filenames : string -> string;
  shared_object_filename : string -> string -> string;
  compiler_compile : list event -> compile_args -> option exn;
  compiler_link_shared_object : list event -> link_args -> option exn;
  import_tensorflow : import_result tensorflow;
  (* [from tensorflow.python.framework import load_library] followed by
     [load_library.load_op_library(lib_file)] *)
  load_op_library : list event -> string -> option exn;
  (* [import numpy], the module being represented by [numpy.get_include()] *)
  import_numpy : import_result string;
  build_extension : ext_id -> Extension -> option exn;
  (* [traceback.format_exc()] while the exception is being handled *)
  format_exc : exn -> string
}.

(** ** State and the monad of the script *)

Record state : Type := mkState {
  common_lib : Extension;
  numpy_lib : Extension;
  tf_lib : Extension;
  log : list event
}.

(** The state at the end of the module-level declarations. *)
Definition initial_state : state :=
  mkState (new_Extension "jpeg2dct.common.common_lib")
          (new_Extension "jpeg2dct.numpy._dctfromjpg_wrapper")
          (new_Extension "jpeg2dct.tensorflow.tf_lib")
          [].

Inductive result (A : Type) : Type :=
| Return (a : A)
| Raise (e : exn).
Arguments Return {A} a.
Arguments Raise {A} e.

Definition M (A : Type) : Type := state -> result A * state.

#[global] Instance M_ret : MRet M := fun A a s => (Return a, s).

#[global] Instance M_bind : MBind M := fun A B f m s =>
  match m s with
  | (Return a, s') => f a s'
  | (Raise e, s') => (Raise e, s')
  end.

Definition raise {A : Type} (e : exn) : M A := fun s => (Raise e, s).

(** The state after further observable actions [l]. *)
Definition append_log (s : state) (l : list event) : state :=
  mkState (common_lib s) (numpy_lib s) (tf_lib s) (log s ++ l).

Definition emit (ev : event) : M unit := fun s =>
  (Return tt, append_log s [ev]).

(** The trace of the run so far. *)
Definition history : M (list event) := fun s => (Return (log s), s).

(** A call of an oracle that raises or returns nothing. *)
Definition call (r : option exn) : M unit :=
  match r with
  | None => mret tt
  | Some e => raise e
  end.

Definition get_ext (id : ext_id) : M Extension := fun s =>
  (Return match id with
          | Common_lib => common_lib s
          | Numpy_lib => numpy_lib s
          | Tf_lib => tf_lib s
          end, s).

Definition set_ext (id : ext_id) (e : Extension) : M unit := fun s =>
  (Return tt,
   match id with
   | Common_lib => mkState e (numpy_lib s) (tf_lib s) (log s)
   | Numpy_lib => mkState (common_lib s) e (tf_lib s) (log s)
   | Tf_lib => mkState (common_lib s) (numpy_lib s) e (log s)
   end).

Definition is_makedirs (p : string) (ev : event) : bool :=
  match ev with
  | EvMakedirs q => String.eqb p q
  | _ => false
  end.

(** [os.path.exists p]: present from the start, or created since. *)
Definition os_path_exists (w : world) (p : string) : M bool := fun s =>
  (Return (path_exists w p || existsb (is_makedirs p) (log s)), s).

(** [os.environ.get(k)] used as a condition. *)
Definition environ_flag (w : world) (k : string) : bool :=
  match os_environ w !! k with
  | Some v => truthy v
  | None => false
  end.

(** [try: body except ...: handler]: [handler e] is [None] when no
    [except] clause matches [e], which then propagates. *)
Definition try_except {A : Type} (body : M A) (handler : exn -> option (M A))
  : M A := fun s =>
  match body s with
  | (Return a, s') => (Return a, s')
  | (Raise e, s') =>
      match handler e with
      | Some h => h s'
      | None => (Raise e, s')
      end
  end.

Definition import_module {A : Type} (module : string) (r : import_result A)
  : M A :=
  emit (EvImport module);;
  match r with
  | ImportFails msg => raise (ImportError msg)
  | Imported m => mret m
  end.

Definition getattr {A : Type} (attr : string) (o : option A) : M A :=
  match o with
  | Some a => mret a
  | None => raise (AttributeError attr)
  end.

(** ** The script *)

Definition check_tf_version (w : world) : M unit :=
  try_except
    (tf ← import_module "tensorflow" (import_tensorflow w);
     v ← getattr "__version__" (tf_version tf);
     if str_lt v "1.1.0" then
       raise (DistutilsPlatformError (Some
         ("Your TensorFlow version " +:+ v +:+ " is outdated.  " +:+
          "Horovod requires tensorflow>=1.1.0")))
     else mret tt)
    (fun e =>
       match e with
       | ImportError _ => Some (raise (DistutilsPlatformError (Some
           ("import tensorflow failed, is it installed?" +:+ nl +:+ nl +:+
            format_exc w e))))
       | AttributeError _ => Some (raise (DistutilsPlatformError (Some
           "Your TensorFlow version is outdated.  Horovod requires tensorflow>=1.1.0")))
       | _ => None
       end).

Definition compile (w : world) (a : compile_args) : M unit :=
  past ← history;
  emit (EvCompile a);; call (compiler_compile w past a).

Definition link_shared_object (w : world) (a : link_args) : M unit :=
  past ← history;
  emit (EvLink a);; call (compiler_link_shared_object w past a).

Definition test_compile (w : world) (c : test_compile_call) : M string :=
  emit (EvTestCompile c);;
  let test_compile_dir := path_join (build_temp w) "test_compile" in
  present ← os_path_exists w test_compile_dir;
  (if negb present then emit (EvMakedirs test_compile_dir) else mret tt);;
  let source_file := path_join test_compile_dir (tc_name c +:+ ".cc") in
  emit (EvWriteFile source_file (tc_code c));;
  let object_file := object_filenames w source_file in
  let shared_object_file :=
    shared_object_filename w (tc_name c) test_compile_dir in
  compile w (mkCompileArgs [source_file] (tc_extra_preargs c)
                           (tc_include_dirs c) (tc_macros c));;
  link_shared_object w (mkLinkArgs [object_file] shared_object_file
                                   (tc_libraries c) (tc_library_dirs c));;
  mret shared_object_file.

(** The loop shared by the three probes:
<<
    for c in candidates:
        try:
            trial(c)
            return c
        except (CompileError, LinkError):
            last_err = see_above
        except Exception:
            last_err = prefix % traceback.format_exc()
    raise DistutilsPlatformError(last_err)
>>
    [last_err] is the value of the variable when the loop is entered.  An
    exception that neither clause matches, that is one which is not an
    instance of [Exception], leaves the loop and the probe. *)
Fixpoint try_candidates {C : Type} (w : world) (see_above prefix : string)
    (trial : C -> M unit) (candidates : list C) (last_err : option string)
  : M C :=
  match candidates with
  | [] => raise (DistutilsPlatformError last_err)
  | c :: rest => fun s =>
      match trial c s with
      | (Return _, s') => (Return c, s')
      | (Raise e, s') =>
          if is_compile_or_link_error e then
            try_candidates w see_above prefix trial rest (Some see_above) s'
          else if is_Exception e then
            try_candidates w see_above prefix trial rest
              (Some (prefix +:+ format_exc w e)) s'
          else (Raise e, s')
      end
  end.

(** What a handler of the loop assigns to [last_err] for an exception that
    it catches. *)
Definition record_reason (w : world) (see_above prefix : string) (e : exn)
  : string :=
  if is_compile_or_link_error e then see_above
  else prefix +:+ format_exc w e.

Definition default_flags : list string := ["-std=c++11"; "-fPIC"; "-O2"].

Definition flags_to_try (w : world) : list (list string) :=
  if String.eqb (sys_platform w) "darwin" then
    [default_flags ++ ["-stdlib=libc++"]; default_flags]
  else
    [default_flags; default_flags ++ ["-stdlib=libc++"]].

Definition cpp_flags_call (cpp_flags : list string) : test_compile_call :=
  mkCall "test_cpp_flags"
         (unlines ["#include <unordered_map>"; "void test() {"; "}"])
         None None None None (Some cpp_flags).

Definition cpp_flags_trial (w : world) (cpp_flags : list string) : M unit :=
  test_compile w (cpp_flags_call cpp_flags);; mret tt.

Definition cpp_flags_see_above : string :=
  "Unable to determine C++ compilation flags (see error above).".

Definition cpp_flags_last_error : string :=
  "Unable to determine C++ compilation flags.  Last error:" +:+ nl +:+ nl.

Definition get_cpp_flags_from (w : world) (candidates : list (list string))
  : M (list string) :=
  try_candidates w cpp_flags_see_above cpp_flags_last_error
    (cpp_flags_trial w) candidates None.

Definition get_cpp_flags (w : world) : M (list string) :=
  get_cpp_flags_from w (flags_to_try w).

Definition get_tf_include_dirs (w : world) : M (list string) :=
  tf ← import_module "tensorflow" (import_tensorflow w);
  let tf_inc := get_include tf in
  mret [tf_inc; tf_inc +:+ "/external/nsync/public"].

Definition get_tf_lib_dirs (w : world) : M (list string) :=
  tf ← import_module "tensorflow" (import_tensorflow w);
  mret [get_lib tf].

Definition tf_libs_call (lib_dirs cpp_flags tf_libs : list string)
  : test_compile_call :=
  mkCall "test_tensorflow_libs"
         (unlines ["void test() {"; "}"])
         (Some tf_libs) None (Some lib_dirs) None (Some cpp_flags).

Definition load (w : world) (lib_file : string) : M unit :=
  past ← history;
  emit (EvLoadOpLibrary lib_file);; call (load_op_library w past lib_file).

Definition tf_libs_trial (w : world) (lib_dirs cpp_flags tf_libs : list string)
  : M unit :=
  lib_file ← test_compile w (tf_libs_call lib_dirs cpp_flags tf_libs);
  load w lib_file.

Definition tf_libs_see_above : string :=
  "Unable to determine -l link flags to use with TensorFlow (see error above).".

Definition tf_libs_last_error : string :=
  "Unable to determine -l link flags to use with TensorFlow.  Last error:"
  +:+ nl +:+ nl.

Definition get_tf_libs_from (w : world) (lib_dirs cpp_flags : list string)
    (candidates : list (list string)) : M (list string) :=
  try_candidates w tf_libs_see_above tf_libs_last_error
    (tf_libs_trial w lib_dirs cpp_flags) candidates None.

Definition get_tf_libs (w : world) (lib_dirs cpp_flags : list string)
  : M (list string) :=
  get_tf_libs_from w lib_dirs cpp_flags [["tensorflow_framework"]; []].

Definition cxx11_abi_macro : string := "_GLIBCXX_USE_CXX11_ABI".

Definition tf_abi_call (include_dirs lib_dirs libs cpp_flags : list string)
    (cxx11_abi : string) : test_compile_call :=
  mkCall "test_tensorflow_abi"
         (unlines
            ["#include <string>";
             "#include " +:+ dq +:+ "tensorflow/core/framework/op.h" +:+ dq;
             "#include " +:+ dq +:+ "tensorflow/core/framework/op_kernel.h"
               +:+ dq;
             "#include " +:+ dq
               +:+ "tensorflow/core/framework/shape_inference.h" +:+ dq;
             "void test() {";
             "    auto ignore = tensorflow::strings::StrCat(" +:+ dq +:+ "a"
               +:+ dq +:+ ", " +:+ dq +:+ "b" +:+ dq +:+ ");";
             "}"])
         (Some libs) (Some include_dirs) (Some lib_dirs)
         (Some [(cxx11_abi_macro, cxx11_abi)]) (Some cpp_flags).

Definition tf_abi_trial (w : world)
    (include_dirs lib_dirs libs cpp_flags : list string) (cxx11_abi : string)
  : M unit :=
  lib_file ←
    test_compile w (tf_abi_call include_dirs lib_dirs libs cpp_flags cxx11_abi);
  load w lib_file.

Definition tf_abi_see_above : string :=
  "Unable to determine CXX11 ABI to use with TensorFlow (see error above).".

Definition tf_abi_last_error : string :=
  "Unable to determine CXX11 ABI to use with TensorFlow.  Last error:"
  +:+ nl +:+ nl.

Definition get_tf_abi_from (w : world)
    (include_dirs lib_dirs libs cpp_flags : list string)
    (candidates : list string) : M (string * string) :=
  cxx11_abi ←
    try_candidates w tf_abi_see_above tf_abi_last_error
      (tf_abi_trial w include_dirs lib_dirs libs cpp_flags) candidates None;
  mret (cxx11_abi_macro, cxx11_abi).

Definition get_tf_abi (w : world)
    (include_dirs lib_dirs libs cpp_flags : list string)
  : M (string * string) :=
  get_tf_abi_from w include_dirs lib_dirs libs cpp_flags ["0"; "1"].

Definition get_tf_flags (w : world) (cpp_flags : list string)
  : M (list string * list string) :=
  tf ← import_module "tensorflow" (import_tensorflow w);
  try_except
    (compile_flags ← getattr "get_compile_flags" (get_compile_flags tf);
     link_flags ← getattr "get_link_flags" (get_link_flags tf);
     mret (compile_flags, link_flags))
    (fun e =>
       match e with
       | AttributeError _ => Some (
           tf_include_dirs ← get_tf_include_dirs w;
           tf_lib_dirs ← get_tf_lib_dirs w;
           tf_libs ← get_tf_libs w tf_lib_dirs cpp_flags;
           tf_abi ← get_tf_abi w tf_include_dirs tf_lib_dirs tf_libs cpp_flags;
           let compile_flags :=
             map (fun include_dir => "-I" +:+ include_dir) tf_include_dirs
             ++ ["-D" +:+ fst tf_abi +:+ "=" +:+ snd tf_abi] in
           let link_flags :=
             map (fun lib_dir => "-L" +:+ lib_dir) tf_lib_dirs
             ++ map (fun lib => "-l" +:+ lib) tf_libs in
           mret (compile_flags, link_flags))
       | _ => None
       end).

Definition get_conda_include_dir (w : world) : list string :=
  let prefix := default "." (os_environ w !! "CONDA_PREFIX") in
  [path_join prefix "include"].

(** The dictionary built by [get_common_options]. *)
Record BuildOptions : Type := mkOptions {
  MACROS : list (string * string);
  INCLUDES : list string;
  SOURCES : list string;
  COMPILE_FLAGS : list string;
  LINK_FLAGS : list string;
  LIBRARY_DIRS : list string;
  LIBRARIES : list string
}.

Definition get_common_options (w : world) : M BuildOptions :=
  cpp_flags ← get_cpp_flags w;
  mret (mkOptions [] ([] ++ get_conda_include_dir w) [] cpp_flags [] [] []).

(** [build_ext.build_extension(ext)] on one of the module-level objects. *)
Definition run_build_extension (w : world) (id : ext_id) : M unit :=
  ext ← get_ext id;
  emit (EvBuildExtension id ext);;
  call (build_extension w id ext).

(** The attribute assignments of [build_common_extension] on [common_lib]. *)
Definition common_lib_settings (options : BuildOptions)
    (abi_compile_flags : list string) (ext : Extension) : Extension :=
  mkExtension (name ext)
    (SOURCES options ++ ["jpeg2dct/common/dctfromjpg.cc"])
    (MACROS options)
    (INCLUDES options)
    (COMPILE_FLAGS options ++ abi_compile_flags)
    (LINK_FLAGS options)
    (LIBRARY_DIRS options)
    (LIBRARIES options ++ ["jpeg"]).

Definition build_common_extension (w : world) (options : BuildOptions)
    (abi_compile_flags : list string) : M unit :=
  ext ← get_ext Common_lib;
  set_ext Common_lib (common_lib_settings options abi_compile_flags ext);;
  run_build_extension w Common_lib.

(** The attribute assignments of [build_numpy_extension] on [numpy_lib]. *)
Definition numpy_lib_settings (options : BuildOptions)
    (abi_compile_flags : list string) (numpy_include : string)
    (ext : Extension) : Extension :=
  mkExtension (name ext)
    (SOURCES options ++ ["jpeg2dct/numpy/dctfromjpg_wrap.cc"])
    (MACROS options)
    (INCLUDES options ++ [numpy_include])
    (COMPILE_FLAGS options ++ abi_compile_flags)
    (LINK_FLAGS options)
    (LIBRARY_DIRS options)
    (LIBRARIES options).

Definition build_numpy_extension (w : world) (options : BuildOptions)
    (abi_compile_flags : list string) : M unit :=
  numpy_include ← import_module "numpy" (import_numpy w);
  ext ← get_ext Numpy_lib;
  set_ext Numpy_lib
    (numpy_lib_settings options abi_compile_flags numpy_include ext);;
  run_build_extension w Numpy_lib.

Definition is_abi_flag (flag : string) : bool :=
  str_in "_GLIBCXX_USE_CXX11_ABI" flag.

(** The attribute assignments of [build_tf_extension] on [tf_lib]. *)
Definition tf_lib_settings (options : BuildOptions)
    (tf_compile_flags tf_link_flags : list string) (ext : Extension)
  : Extension :=
  mkExtension (name ext)
    (SOURCES options ++ ["jpeg2dct/tensorflow/tf_lib.cc"])
    (MACROS options)
    (INCLUDES options)
    (COMPILE_FLAGS options ++ tf_compile_flags)
    (LINK_FLAGS options ++ tf_link_flags)
    (LIBRARY_DIRS options)
    (LIBRARIES options).

Definition build_tf_extension (w : world) (options : BuildOptions)
  : M (list string) :=
  check_tf_version w;;
  '(tf_compile_flags, tf_link_flags) ← get_tf_flags w (COMPILE_FLAGS options);
  ext ← get_ext Tf_lib;
  set_ext Tf_lib (tf_lib_settings options tf_compile_flags tf_link_flags ext);;
  run_build_extension w Tf_lib;;
  mret (List.filter is_abi_flag tf_compile_flags).

(** The text handed to [print(..., file=sys.stderr)]. *)
Definition skip_message (w : world) (e : exn) : string :=
  "INFO: Unable to build TensorFlow plugin, will skip it." +:+ nl +:+ nl +:+
  format_exc w e.

(** [custom_build_ext.build_extensions].  The pair bound after the [if] is
    that of the locals [abi_compile_flags] and [built_plugins]. *)
Definition build_extensions (w : world) : M unit :=
  options ← get_common_options w;
  '(abi_compile_flags, built_plugins) ←
    (if negb (environ_flag w "JPEG2DCT_WITHOUT_TENSORFLOW") then
       try_except
         (abi_compile_flags ← build_tf_extension w options;
          mret (abi_compile_flags, [true]))
         (fun e => Some (
            if negb (environ_flag w "JPEG2DCT_WITH_TENSORFLOW") then
              emit (EvPrintStderr (skip_message w e));;
              mret ([], [false])
            else raise e))
     else mret ([], []));
  build_common_extension w options abi_compile_flags;;
  build_numpy_extension w options abi_compile_flags.

(** ** Vocabulary of the specification *)

(** What was observed between two states of one run. *)
Definition events_since (s s' : state) : list event :=
  drop (length (log s)) (log s').

(** The calls of [test_compile], in order. *)
Definition trial_calls (l : list event) : list test_compile_call :=
  omap (fun ev => match ev with EvTestCompile c => Some c | _ => None end) l.

(** The calls of [build_ext.build_extension], in order, each with the
    attributes of the extension object at the time of the call. *)
Definition builds (l : list event) : list (ext_id * Extension) :=
  omap (fun ev =>
          match ev with EvBuildExtension id e => Some (id, e) | _ => None end)
       l.

Definition stderr (l : list event) : list string :=
  omap (fun ev => match ev with EvPrintStderr t => Some t | _ => None end) l.

(** Actions that belong to the framework probe or to the framework build. *)
Definition is_framework_event (ev : event) : bool :=
  match ev with
  | EvImport m => String.eqb m "tensorflow"
  | EvTestCompile c => negb (String.eqb (tc_name c) "test_cpp_flags")
  | EvLoadOpLibrary _ => true
  | EvBuildExtension Tf_lib _ => true
  | _ => false
  end.

(** The files of one trial. *)
Definition test_compile_dir (w : world) : string :=
  path_join (build_temp w) "test_compile".

Definition source_file (w : world) (c : test_compile_call) : string :=
  path_join (test_compile_dir w) (tc_name c +:+ ".cc").

Definition shared_object_file (w : world) (c : test_compile_call) : string :=
  shared_object_filename w (tc_name c) (test_compile_dir w).


Definition writes (l : list event) : list (string * string) :=
  omap (fun ev =>
          match ev with EvWriteFile p code => Some (p, code) | _ => None end)
       l.

Definition compiles (l : list event) : list compile_args :=
  omap (fun ev => match ev with EvCompile a => Some a | _ => None end) l.

Definition links (l : list event) : list link_args :=
  omap (fun ev => match ev with EvLink a => Some a | _ => None end) l.

Definition loads (l : list event) : list string :=
  omap (fun ev => match ev with EvLoadOpLibrary f => Some f | _ => None end)
       l.

(** Whether the scratch directory of the trials exists in state [s]. *)
Definition scratch_dir_exists (w : world) (s : state) : bool :=
  path_exists w (test_compile_dir w) ||
  existsb (is_makedirs (test_compile_dir w)) (log s).

(** The arguments of the compile step and of the link step of a trial. *)
Definition compile_args_of (w : world) (c : test_compile_call)
  : compile_args :=
  mkCompileArgs [source_file w c] (tc_extra_preargs c) (tc_include_dirs c)
                (tc_macros c).

Definition link_args_of (w : world) (c : test_compile_call) : link_args :=
  mkLinkArgs [object_filenames w (source_file w c)] (shared_object_file w c)
             (tc_libraries c) (tc_library_dirs c).

(** What a call of [test_compile] in state [s] does before it asks the
    compiler: it creates the scratch directory if it is missing and writes
    the source file. *)
Definition setup_steps (w : world) (c : test_compile_call) (s : state)
  : list event :=
  EvTestCompile c ::
  (if scratch_dir_exists w s then [] else [EvMakedirs (test_compile_dir w)])
  ++ [EvWriteFile (source_file w c) (tc_code c)].

(** The answer of the compiler to the compile step of that call, and the
    answer of the linker to its link step, which follows the compile
    step. *)
Definition compile_outcome (w : world) (c : test_compile_call) (s : state)
  : option exn :=
  compiler_compile w (log s ++ setup_steps w c s) (compile_args_of w c).

Definition link_outcome (w : world) (c : test_compile_call) (s : state)
  : option exn :=
  compiler_link_shared_object w
    (log s ++ setup_steps w c s ++ [EvCompile (compile_args_of w c)])
    (link_args_of w c).

Definition test_compile_result (w : world) (c : test_compile_call)
    (s : state) : result string :=
  match compile_outcome w c s with
  | Some e => Raise e
  | None =>
      match link_outcome w c s with
      | Some e => Raise e
      | None => Return (shared_object_file w c)
      end
  end.

(** All the steps of the call. *)
Definition toolchain_steps (w : world) (c : test_compile_call) (s : state)
  : list event :=
  setup_steps w c s ++
  EvCompile (compile_args_of w c) ::
  match compile_outcome w c s with
  | None => [EvLink (link_args_of w c)]
  | Some _ => []
  end.

(** The loop of a probe, read off the trials: the candidates of [pre] fail
    in turn from state [s], each with an exception that the loop catches,
    and leave the run in the state returned; and the candidates that the
    loop tries from state [s]. *)
Section Trials.
Context {C : Type} (trial : C -> M unit).

Fixpoint fail_in_turn (pre : list C) (s : state) : option state :=
  match pre with
  | [] => Some s
  | c :: rest =>
      match trial c s with
      | (Raise e, s') => if is_Exception e then fail_in_turn rest s' else None
      | (Return _, _) => None
      end
  end.

Fixpoint attempted (candidates : list C) (s : state) : list C :=
  match candidates with
  | [] => []
  | c :: rest =>
      match trial c s with
      | (Raise e, s') => if is_Exception e then c :: attempted rest s' else [c]
      | (Return _, _) => [c]
      end
  end.
End Trials.

(** A computation that leaves the extension objects alone and all of whose
    observable actions satisfy [P]. *)
Definition emits {A : Type} (P : event -> bool) (m : M A) : Prop :=
  forall s, exists l, (m s).2 = append_log s l /\ forallb P l = true.

(** The actions inside one call of [test_compile]. *)
Definition is_toolchain_step (ev : event) : bool :=
  match ev with
  | EvMakedirs _ | EvWriteFile _ _ | EvCompile _ | EvLink _ => true
  | _ => false
  end.

(** What the probe of the C++ flags does. *)
Definition is_cpp_probe_step (ev : event) : bool :=
  match ev with
  | EvTestCompile c => String.eqb (tc_name c) "test_cpp_flags"
  | _ => is_toolchain_step ev
  end.

(** What the framework probe does: imports of the framework, trials and
    library loads. *)
Definition is_framework_probe_step (ev : event) : bool :=
  match ev with
  | EvImport m => String.eqb m "tensorflow"
  | EvTestCompile _ | EvLoadOpLibrary _ => true
  | _ => is_toolchain_step ev
  end.

Definition is_core_or_numpy_build (ev : event) : bool :=
  match ev with
  | EvBuildExtension Common_lib _ | EvBuildExtension Numpy_lib _ => true
  | _ => false
  end.

(** The builds made by [build_common_extension] followed by
    [build_numpy_extension] from state [s]: the core library always, the
    wrapper when the core build returned and [numpy] can be imported. *)
Definition core_and_numpy_builds (w : world) (options : BuildOptions)
    (abi_compile_flags : list string) (s : state)
  : list (ext_id * Extension) :=
  let core := common_lib_settings options abi_compile_flags (common_lib s) in
  (Common_lib, core) ::
  match build_extension w Common_lib core, import_numpy w with
  | None, Imported numpy_include =>
      [(Numpy_lib,
        numpy_lib_settings options abi_compile_flags numpy_include
                           (numpy_lib s))]
  | _, _ => []
  end.

(** The core library and the wrapper, one after the other. *)
Definition build_core_and_numpy (w : world) (options : BuildOptions)
    (abi_compile_flags : list string) : M unit :=
  build_common_extension w options abi_compile_flags;;
  build_numpy_extension w options abi_compile_flags.

Definition abi_flags (flags : list string) : list string :=
  List.filter is_abi_flag flags.

Definition raises_platform_error {A : Type} (r : result A) : bool :=
  match r with
  | Raise e => is_platform_error e
  | Return _ => false
  end.

Definition is_build (ev : event) : bool :=
  match ev with EvBuildExtension _ _ => true | _ => false end.

Definition result_of (o : option exn) : result unit :=
  match o with None => Return tt | Some e => Raise e end.

(** A trial that calls [test_compile] once, on [call_of c], and builds
    nothing. *)
Definition one_call_trial {C : Type} (trial : C -> M unit)
    (call_of : C -> test_compile_call) : Prop :=
  forall c s, exists l,
    (trial c s).2 = append_log s l /\
    trial_calls l = [call_of c] /\
    forallb (fun ev => negb (is_build ev)) l = true.

(** [run] is the loop of a probe: it tries the candidates with [trial] and
    answers [answer c] for the candidate [c] that wins. *)
Definition probe_of {C R : Type} (w : world) (see_above last_error : string)
    (trial : C -> M unit) (answer : C -> R) (run : list C -> M R) : Prop :=
  forall (candidates : list C) (s : state),
    run candidates s =
      match try_candidates w see_above last_error trial candidates None s with
      | (Return c, s') => (Return (answer c), s')
      | (Raise e, s') => (Raise e, s')
      end.

(** ** Statements about a probe

    [run] is the loop of a probe over a list of candidates, [trial] the body
    of its [try] without the [return], [call_of] the call of [test_compile]
    made for a candidate and [answer] what the probe returns when the
    candidate wins.  A trial succeeds when it returns; it fails when it
    raises an instance of [Exception], which is what the two handlers of the
    loop catch. *)

Section ProbeStatements.
Context {C R : Type} (w : world) (run : list C -> M R).
Context (trial : C -> M unit) (call_of : C -> test_compile_call).
Context (answer : C -> R) (see_above last_error : string).

(** When the candidates before [c] fail and the trial of [c] succeeds, the
    probe answers [c] in the state in which that trial ends, and the trials
    made are those of the candidates up to [c]. *)
Definition first_success_wins_for : Prop :=
  forall (pre post : list C) (c : C) (s s1 : state),
    fail_in_turn trial pre s = Some s1 ->
    (trial c s1).1 = Return tt ->
    run (pre ++ c :: post) s = (Return (answer c), (trial c s1).2) /\
    trial_calls (events_since s (trial c s1).2) = map call_of (pre ++ [c]).

(** When every candidate fails, the probe raises the platform error with
    the reason recorded for the exception [e] of the last one. *)
Definition last_reason_reported_for : Prop :=
  forall (pre : list C) (c : C) (e : exn) (s s1 : state),
    fail_in_turn trial pre s = Some s1 ->
    (trial c s1).1 = Raise e ->
    is_Exception e = true ->
    run (pre ++ [c]) s =
      (Raise (DistutilsPlatformError
                (Some (record_reason w see_above last_error e))),
       (trial c s1).2) /\
    trial_calls (events_since s (trial c s1).2) = map call_of (pre ++ [c]).

(** An exception other than [CompileError] and [LinkError] ends the probe at
    once: the probe raises and tries no further candidate. *)
Definition other_exception_fatal_for : Prop :=
  forall (pre post : list C) (c : C) (e : exn) (s s1 : state),
    fail_in_turn trial pre s = Some s1 ->
    (trial c s1).1 = Raise e ->
    is_compile_or_link_error e = false ->
    exists e' s',
      run (pre ++ c :: post) s = (Raise e', s') /\
      trial_calls (events_since s s') = map call_of (pre ++ [c]).

(** Such an exception, when it is an instance of [Exception], is recorded
    with the traceback and the loop goes on: the next candidate is tried,
    and wins if its trial succeeds; when there is no next candidate the
    record is what the probe reports.  When it is not an instance of
    [Exception], it ends the probe at once: the probe raises it as it is and
    tries no further candidate. *)
Definition other_exception_recorded_for : Prop :=
  forall (pre : list C) (c : C) (e : exn) (s s1 : state),
    fail_in_turn trial pre s = Some s1 ->
    (trial c s1).1 = Raise e ->
    is_compile_or_link_error e = false ->
    (is_Exception e = true ->
     (forall (c' : C) (post : list C), exists r s' more,
         run (pre ++ c :: c' :: post) s = (r, s') /\
         trial_calls (events_since s s') =
           map call_of (pre ++ [c; c']) ++ more /\
         ((trial c' (trial c s1).2).1 = Return tt ->
          r = Return (answer c'))) /\
     run (pre ++ [c]) s =
       (Raise (DistutilsPlatformError
                 (Some (last_error +:+ format_exc w e))), (trial c s1).2) /\
     trial_calls (events_since s (trial c s1).2) = map call_of (pre ++ [c]))
    /\
    (is_Exception e = false ->
     forall post : list C,
       run (pre ++ c :: post) s = (Raise e, (trial c s1).2) /\
       trial_calls (events_since s (trial c s1).2) = map call_of (pre ++ [c])).

(** What leaves a probe that does not return: a [DistutilsPlatformError] of
    the probe, with a message as soon as there was a candidate, or else an
    exception that is not an instance of [Exception], raised by the trial of
    a candidate, with which the probe ends. *)
Definition lets_through_for : Prop :=
  forall (candidates : list C) (s s' : state) (e : exn),
    run candidates s = (Raise e, s') ->
    (is_Exception e = true ->
     exists reason,
       e = DistutilsPlatformError reason /\
       (candidates <> [] -> exists msg, reason = Some msg)) /\
    (is_Exception e = false ->
     exists c s0, In c candidates /\ trial c s0 = (Raise e, s')).

End ProbeStatements.

(** ** Example surroundings *)

Definition show_exn (e : exn) : string :=
  match e with
  | CompileError msg => "CompileError: " +:+ msg
  | LinkError msg => "LinkError: " +:+ msg
  | DistutilsPlatformError (Some msg) => "DistutilsPlatformError: " +:+ msg
  | DistutilsPlatformError None => "DistutilsPlatformError: None"
  | ImportError msg => "ImportError: " +:+ msg
  | AttributeError attr => "AttributeError: " +:+ attr
  | OtherException cls msg => cls +:+ ": " +:+ msg
  | NonException cls msg => cls +:+ ": " +:+ msg
  end.

(** A Linux host with an empty scratch area, where every oracle is given. *)
Definition example_host (env : gmap string string)
    (cc : list event -> compile_args -> option exn)
    (ld : list event -> link_args -> option exn)
    (tf : import_result tensorflow)
    (loader : list event -> string -> option exn)
    (builder : ext_id -> Extension -> option exn) : world :=
  mkWorld "linux" env "build/temp" (fun _ => false)
          (fun src => src +:+ ".o")
          (fun n dir => path_join dir ("lib" +:+ n +:+ ".so"))
          cc ld tf loader (Imported "/numpy/include") builder show_exn.

(** The same, with a toolchain and a loader that go by their arguments
    alone. *)
Definition example_world (env : gmap string string)
    (cc : compile_args -> option exn) (ld : link_args -> option exn)
    (tf : import_result tensorflow) (loader : string -> option exn)
    (builder : ext_id -> Extension -> option exn) : world :=
  example_host env (fun _ => cc) (fun _ => ld) tf (fun _ => loader) builder.

Definition accepts_all {A : Type} (_ : A) : option exn := None.

Definition builds_all (_ : ext_id) (_ : Extension) : option exn := None.

Definition libcxx_flags : list string := default_flags ++ ["-stdlib=libc++"].

Definition has_libcxx (a : compile_args) : bool :=
  match ca_extra_preargs a with
  | Some flags => existsb (String.eqb "-stdlib=libc++") flags
  | None => false
  end.

(** A compiler that wants [-stdlib=libc++] and fails with [e] without it. *)
Definition needs_libcxx (e : exn) (a : compile_args) : option exn :=
  if has_libcxx a then None else Some e.

(** A compiler that rejects everything. *)
Definition rejects_all (e : exn) (a : compile_args) : option exn := Some e.

(** A linker that cannot find [tensorflow_framework]. *)
Definition no_framework_library (a : link_args) : option exn :=
  match la_libraries a with
  | Some (_ :: _) => Some (LinkError "cannot find -ltensorflow_framework")
  | _ => None
  end.

(** A compiler for which the framework headers need the new ABI. *)
Definition needs_new_abi (a : compile_args) : option exn :=
  match ca_macros a with
  | Some [(_, "0")] => Some (CompileError "old ABI")
  | _ => None
  end.

(** A framework that declares its flags itself. *)
Definition tf_declaring (version : string) : tensorflow :=
  mkTensorflow (Some version) (Some ["-Iinc"]) (Some ["-Lfw"; "-lfw"])
               "/tf/include" "/tf".

(** An older framework, without the flags interface. *)
Definition tf_legacy (version : string) : tensorflow :=
  mkTensorflow (Some version) None None "/tf/include" "/tf".

Definition plain_world : world :=
  example_world ∅ accepts_all accepts_all (Imported (tf_declaring "1.15.0"))
                accepts_all builds_all.

Definition legacy_world : world :=
  example_world ∅ needs_new_abi no_framework_library
                (Imported (tf_legacy "1.3.0")) accepts_all builds_all.

Definition libcxx_world (e : exn) : world :=
  example_world ∅ (needs_libcxx e) accepts_all
                (Imported (tf_legacy "1.3.0")) accepts_all builds_all.

Definition broken_compiler_world (e : exn) : world :=
  example_world ∅ (rejects_all e) accepts_all
                (Imported (tf_legacy "1.3.0")) accepts_all builds_all.

Definition no_framework_world (env : gmap string string) : world :=
  example_world env accepts_all accepts_all
                (ImportFails "No module named 'tensorflow'")
                accepts_all builds_all.

(** A compiler that rejects everything, with [e_libcxx] when it is given
    [-stdlib=libc++] and with [e_plain] otherwise. *)
Definition rejects_with (e_plain e_libcxx : exn) (a : compile_args)
  : option exn :=
  if has_libcxx a then Some e_libcxx else Some e_plain.

Definition crash : exn := OtherException "OSError" "g++: command not found".

Definition two_failures_world : world :=
  example_world ∅ (rejects_with crash (CompileError "unknown option"))
                accepts_all (Imported (tf_legacy "1.3.0"))
                accepts_all builds_all.

Definition disabled_world : world :=
  example_world {[ "JPEG2DCT_WITHOUT_TENSORFLOW" := "1" ]}
                accepts_all accepts_all (Imported (tf_declaring "1.15.0"))
                accepts_all builds_all.

Definition conda_world : world :=
  example_world {[ "CONDA_PREFIX" := "/opt/conda" ]}
                accepts_all accepts_all (Imported (tf_declaring "1.15.0"))
                accepts_all builds_all.

Definition required_world : world :=
  no_framework_world {[ "JPEG2DCT_WITH_TENSORFLOW" := "1" ]}.

(** The options computed on the example hosts, whose compiler takes the
    default flags. *)
Definition plain_options : BuildOptions :=
  mkOptions [] ["./include"] [] default_flags [] [] [].

(** An interrupt of the user, which is not an instance of [Exception]. *)
Definition interrupt : exn := NonException "KeyboardInterrupt" EmptyString.

(** The macros of the last compile step of a trace: those of the object
    file, and of the shared object linked from it, that a trial has just
    made. *)
Definition last_macros (past : list event) : option (list (string * string)) :=
  match last (compiles past) with
  | Some a => ca_macros a
  | None => None
  end.



(** A loader that refuses every library, naming the ABI it was compiled
    for. *)
Definition never_loads (past : list event) (lib_file : string) : option exn :=
  Some (OtherException "NotFoundError"
          match last_macros past with
          | Some [(_, v)] => "undefined symbol, ABI " +:+ v
          | _ => "undefined symbol"
          end).

Definition hopeless_world : world :=
  example_host ∅ (fun _ => accepts_all) (fun _ => no_framework_library)
               (Imported (tf_legacy "1.3.0")) never_loads builds_all.

(** The same example host, under macOS. *)
Definition darwin_world : world :=
  mkWorld "darwin" ∅ "build/temp" (fun _ => false)
          (fun src => src +:+ ".o")
          (fun n dir => path_join dir ("lib" +:+ n +:+ ".so"))
          (fun _ => accepts_all) (fun _ => accepts_all)
          (Imported (tf_declaring "1.15.0"))
          (fun _ => accepts_all) (Imported "/numpy/include") builds_all
          show_exn.

(** A host whose framework is too old. *)
Definition outdated_world : world :=
  example_world ∅ accepts_all accepts_all (Imported (tf_legacy "1.0.1"))
                accepts_all builds_all.


(** The flags composed by the manual discovery of [get_tf_flags]. *)
Definition manual_compile_flags (tf_include_dirs : list string)
    (tf_abi : string * string) : list string :=
  map (fun include_dir => "-I" +:+ include_dir) tf_include_dirs
  ++ ["-D" +:+ tf_abi.1 +:+ "=" +:+ tf_abi.2].

Definition manual_link_flags (tf_lib_dirs tf_libs : list string)
  : list string :=
  map (fun lib_dir => "-L" +:+ lib_dir) tf_lib_dirs
  ++ map (fun lib => "-l" +:+ lib) tf_libs.

(** The include directories of [get_tf_include_dirs]. *)
Definition tf_include_dirs_of (tf : tensorflow) : list string :=
  [get_include tf; get_include tf +:+ "/external/nsync/public"].

(** A framework that exposes [get_compile_flags] but not [get_link_flags]. *)
Definition tf_half_declaring : tensorflow :=
  mkTensorflow (Some "1.4.0") (Some ["-Iinc"]) None "/tf/include" "/tf".

Definition half_declaring_world : world :=
  example_world ∅ accepts_all accepts_all (Imported tf_half_declaring)
                accepts_all builds_all.

(** The extension object behind an identifier, and the settings that do not
    depend on the run: the one source file of each extension and the
    libraries it names. *)
Definition ext_of (s : state) (id : ext_id) : Extension :=
  match id with
  | Common_lib => common_lib s
  | Numpy_lib => numpy_lib s
  | Tf_lib => tf_lib s
  end.

Definition primary_source (id : ext_id) : string :=
  match id with
  | Common_lib => "jpeg2dct/common/dctfromjpg.cc"
  | Numpy_lib => "jpeg2dct/numpy/dctfromjpg_wrap.cc"
  | Tf_lib => "jpeg2dct/tensorflow/tf_lib.cc"
  end.

Definition named_libraries (id : ext_id) : list string :=
  match id with
  | Common_lib => ["jpeg"]
  | _ => []
  end.

(** A build whose extension has the name it was declared with in [s], its
    one source file, its libraries, no macro, no library directory, link
    flags only for the plugin, and include directories and compile flags that
    start with those of the baseline. *)
Definition well_configured (w : world) (s : state) (cpp_flags : list string)
    (b : ext_id * Extension) : Prop :=
  name b.2 = name (ext_of s b.1) /\
  sources b.2 = [primary_source b.1] /\
  libraries b.2 = named_libraries b.1 /\
  define_macros b.2 = [] /\
  library_dirs b.2 = [] /\
  (b.1 <> Tf_lib -> extra_link_args b.2 = []) /\
  (exists more, include_dirs b.2 = get_conda_include_dir w ++ more) /\
  (exists more, extra_compile_args b.2 = cpp_flags ++ more).

(** The extensions built in a trace, in order. *)
Definition built (l : list event) : list ext_id := map fst (builds l).

(** A host on which the wrapper does not build. *)
Definition wrapper_fails_world : world :=
  example_world ∅ accepts_all accepts_all (Imported (tf_declaring "1.15.0"))
                accepts_all
                (fun id _ =>
                   match id with
                   | Numpy_lib => Some (CompileError "dctfromjpg_wrap.cc")
                   | _ => None
                   end).

(** * Properties *)

(** ** Python strings *)

Example str_lt_examples :
  str_lt "0.12.0" "1.1.0" = true /\ str_lt "1.0.1" "1.1.0" = true /\
  str_lt "1.1.0" "1.1.0" = false /\ str_lt "1.10.0" "1.1.0" = false /\
  str_lt "2.0" "1.1.0" = false /\ str_lt "1.1" "1.1.0" = true.
Proof. repeat split. Qed.

(** [str_lt] is the strict order of the standard library on strings. *)
Lemma str_lt_ltb (a b : string) : str_lt a b = String.ltb a b.
Proof.
  unfold String.ltb. revert b.
  induction a as [|x a IH]; intros [|y b]; simpl; try reflexivity.
  unfold Ascii.compare, nat_of_ascii.
  rewrite (N2Nat.inj_compare (N_of_ascii x) (N_of_ascii y)).
  destruct (Nat.compare_spec (N.to_nat (N_of_ascii x))
                             (N.to_nat (N_of_ascii y))) as [Heq|Hlt|Hgt].
  - rewrite Heq, Nat.ltb_irrefl. apply IH.
  - apply Nat.ltb_lt in Hlt as ->. reflexivity.
  - assert (H1 : Nat.ltb (N.to_nat (N_of_ascii x))
                         (N.to_nat (N_of_ascii y)) = false)
      by (apply Nat.ltb_ge; lia).
    apply Nat.ltb_lt in Hgt. by rewrite H1, Hgt.
Qed.

Example path_join_examples :
  path_join "." "include" = "./include" /\
  path_join "/opt/conda" "include" = "/opt/conda/include" /\
  path_join "/opt/conda/" "include" = "/opt/conda/include" /\
  path_join EmptyString "include" = "include" /\
  path_join "build" "/abs" = "/abs".
Proof. repeat split. Qed.

Example is_abi_flag_examples :
  is_abi_flag "-D_GLIBCXX_USE_CXX11_ABI=0" = true /\
  is_abi_flag "-Iinc" = false /\
  is_abi_flag "-I/tf/include" = false.
Proof. repeat split. Qed.

(** ** The trace *)

Lemma append_log_nil (s : state) : append_log s [] = s.
Proof. destruct s; unfold append_log; simpl. by rewrite app_nil_r. Qed.

Lemma append_log_app (s : state) (l1 l2 : list event) :
  append_log (append_log s l1) l2 = append_log s (l1 ++ l2).
Proof. unfold append_log; simpl. by rewrite app_assoc. Qed.

Lemma events_since_log (s s' : state) (l : list event) :
  log s' = log s ++ l -> events_since s s' = l.
Proof. intros H. unfold events_since. rewrite H. apply drop_app_length. Qed.

Lemma events_since_append_log (s : state) (l : list event) :
  events_since s (append_log s l) = l.
Proof. by apply events_since_log. Qed.

Lemma trial_calls_app (l1 l2 : list event) :
  trial_calls (l1 ++ l2) = trial_calls l1 ++ trial_calls l2.
Proof. apply omap_app. Qed.

Lemma builds_app (l1 l2 : list event) :
  builds (l1 ++ l2) = builds l1 ++ builds l2.
Proof. apply omap_app. Qed.

Lemma forallb_weaken {A : Type} (P Q : A -> bool) (l : list A) :
  (forall x, P x = true -> Q x = true) ->
  forallb P l = true -> forallb Q l = true.
Proof.
  intros HPQ. rewrite !forallb_forall. auto.
Qed.

(** ** Running the monad *)

Lemma run_bind {A B : Type} (m : M A) (k : A -> M B) (s : state) :
  (m ≫= k) s =
  match m s with
  | (Return a, s') => k a s'
  | (Raise e, s') => (Raise e, s')
  end.
Proof. reflexivity. Qed.

(** ** What a computation can emit *)

Section Emits.
Context (P : event -> bool).

Lemma emits_ret {A : Type} (a : A) : emits P (mret a).
Proof. intros s. exists []. simpl. by rewrite append_log_nil. Qed.

Lemma emits_raise {A : Type} (e : exn) : emits P (@raise A e).
Proof. intros s. exists []. simpl. by rewrite append_log_nil. Qed.

Lemma emits_emit (ev : event) : P ev = true -> emits P (emit ev).
Proof. intros H s. exists [ev]. simpl. by rewrite H. Qed.

Lemma emits_call (r : option exn) : emits P (call r).
Proof. destruct r; [apply emits_raise | apply emits_ret]. Qed.

Lemma emits_get_ext (id : ext_id) : emits P (get_ext id).
Proof. intros s. exists []. simpl. by rewrite append_log_nil. Qed.

Lemma emits_history : emits P history.
Proof. intros s. exists []. simpl. by rewrite append_log_nil. Qed.

Lemma emits_os_path_exists (w : world) (p : string) :
  emits P (os_path_exists w p).
Proof. intros s. exists []. simpl. by rewrite append_log_nil. Qed.

Lemma emits_getattr {A : Type} (attr : string) (o : option A) :
  emits P (getattr attr o).
Proof. destruct o; [apply emits_ret | apply emits_raise]. Qed.

Lemma emits_bind {A B : Type} (m : M A) (k : A -> M B) :
  emits P m -> (forall a, emits P (k a)) -> emits P (m ≫= k).
Proof.
  intros Hm Hk s. rewrite run_bind.
  destruct (Hm s) as (l1 & Hl1 & HP1).
  destruct (m s) as [[a|e] s1]; simpl in *.
  - destruct (Hk a s1) as (l2 & Hl2 & HP2).
    exists (l1 ++ l2).
    rewrite Hl2, Hl1, append_log_app, forallb_app, HP1, HP2. done.
  - exists l1. done.
Qed.

Lemma emits_try_except {A : Type} (body : M A) (handler : exn -> option (M A)) :
  emits P body ->
  (forall e h, handler e = Some h -> emits P h) ->
  emits P (try_except body handler).
Proof.
  intros Hb Hh s. unfold try_except.
  destruct (Hb s) as (l1 & Hl1 & HP1).
  destruct (body s) as [[a|e] s1]; simpl in *.
  - exists l1. done.
  - destruct (handler e) as [h|] eqn:Hhe.
    + destruct (Hh e h Hhe s1) as (l2 & Hl2 & HP2).
      exists (l1 ++ l2).
      rewrite Hl2, Hl1, append_log_app, forallb_app, HP1, HP2. done.
    + exists l1. done.
Qed.

Lemma emits_if {A : Type} (b : bool) (m1 m2 : M A) :
  emits P m1 -> emits P m2 -> emits P (if b then m1 else m2).
Proof. by destruct b. Qed.

Lemma emits_import_module {A : Type} (module : string) (r : import_result A) :
  P (EvImport module) = true -> emits P (import_module module r).
Proof.
  intros H. unfold import_module. apply emits_bind; [by apply emits_emit|].
  intros _. destruct r; [apply emits_raise | apply emits_ret].
Qed.

Lemma emits_try_candidates {C : Type} (w : world) (see_above prefix : string)
    (trial : C -> M unit) (candidates : list C) (last_err : option string) :
  (forall c, emits P (trial c)) ->
  emits P (try_candidates w see_above prefix trial candidates last_err).
Proof.
  intros Ht. revert last_err.
  induction candidates as [|c rest IH]; intros last_err s; simpl.
  - exists []. simpl. by rewrite append_log_nil.
  - destruct (Ht c s) as (l1 & Hl1 & HP1).
    destruct (trial c s) as [[[]|e] s1]; simpl in *.
    { exists l1. done. }
    assert (Hrest : forall msg, exists l,
              (try_candidates w see_above prefix trial rest (Some msg) s1).2 =
                append_log s l /\ forallb P l = true).
    { intros msg. destruct (IH (Some msg) s1) as (l2 & Hl2 & HP2).
      exists (l1 ++ l2).
      rewrite Hl2, Hl1, append_log_app, forallb_app, HP1, HP2. done. }
    destruct (is_compile_or_link_error e); [apply Hrest|].
    destruct (is_Exception e); [apply Hrest|].
    exists l1. done.
Qed.

End Emits.

Lemma emits_weaken {A : Type} (P Q : event -> bool) (m : M A) :
  (forall ev, P ev = true -> Q ev = true) -> emits P m -> emits Q m.
Proof.
  intros HPQ Hm s. destruct (Hm s) as (l & Hl & HP).
  exists l. split; [done|]. by apply forallb_weaken with P.
Qed.

(** ** One trial *)

Lemma test_compile_run (w : world) (c : test_compile_call) (s : state) :
  test_compile w c s =
    (test_compile_result w c s, append_log s (toolchain_steps w c s)).
Proof.
  unfold test_compile_result, toolchain_steps, compile_outcome, link_outcome,
    setup_steps, scratch_dir_exists, compile_args_of, link_args_of,
    shared_object_file, source_file.
  unfold test_compile, test_compile_dir, compile, link_shared_object,
    history, os_path_exists, emit, mbind, M_bind, append_log.
  cbn [log common_lib numpy_lib tf_lib].
  rewrite existsb_app. cbn [existsb is_makedirs]. rewrite !orb_false_r.
  destruct (path_exists w _ || existsb _ (log s)); cbn [negb mret M_ret];
    cbn [log common_lib numpy_lib tf_lib]; rewrite <- ?app_assoc; cbn [app];
    (destruct (compiler_compile w _ _) as [e1|]; cbn [call raise mret M_ret];
     [| cbn [log common_lib numpy_lib tf_lib]; rewrite <- ?app_assoc;
        cbn [app];
        destruct (compiler_link_shared_object w _ _) as [e2|];
        cbn [call raise mret M_ret] ]);
    cbn [log common_lib numpy_lib tf_lib]; rewrite <- ?app_assoc;
    reflexivity.
Qed.

Lemma toolchain_steps_calls (w : world) (c : test_compile_call) (s : state) :
  trial_calls (toolchain_steps w c s) = [c] /\
  forallb (fun ev => negb (is_build ev)) (toolchain_steps w c s) = true.
Proof.
  unfold toolchain_steps, setup_steps.
  by destruct (scratch_dir_exists w s), (compile_outcome w c s).
Qed.

Lemma load_run (w : world) (lib_file : string) (s : state) :
  load w lib_file s =
  (result_of (load_op_library w (log s) lib_file),
   append_log s [EvLoadOpLibrary lib_file]).
Proof.
  unfold load, history. rewrite !run_bind. cbn [emit].
  by destruct (load_op_library w (log s) lib_file).
Qed.

Lemma cpp_flags_trial_run (w : world) (cpp_flags : list string) (s : state) :
  cpp_flags_trial w cpp_flags s =
    (match test_compile_result w (cpp_flags_call cpp_flags) s with
     | Return _ => Return tt
     | Raise e => Raise e
     end,
     append_log s (toolchain_steps w (cpp_flags_call cpp_flags) s)).
Proof.
  unfold cpp_flags_trial. rewrite run_bind, test_compile_run.
  by destruct (test_compile_result w _ s).
Qed.

Lemma compile_and_load_run (w : world) (c : test_compile_call) (s : state) :
  (test_compile w c ≫= load w) s =
    match test_compile_result w c s with
    | Return lib_file =>
        (result_of
           (load_op_library w (log s ++ toolchain_steps w c s) lib_file),
         append_log s (toolchain_steps w c s ++ [EvLoadOpLibrary lib_file]))
    | Raise e => (Raise e, append_log s (toolchain_steps w c s))
    end.
Proof.
  rewrite run_bind, test_compile_run.
  destruct (test_compile_result w c s) as [lib_file|e]; [|reflexivity].
  by rewrite load_run, append_log_app.
Qed.

Lemma cpp_flags_trial_calls (w : world) :
  one_call_trial (cpp_flags_trial w) cpp_flags_call.
Proof.
  intros c s. rewrite cpp_flags_trial_run. eexists. split; [reflexivity|].
  apply toolchain_steps_calls.
Qed.

Lemma compile_and_load_calls (w : world) (c : test_compile_call) (s : state) :
  exists l,
    ((test_compile w c ≫= load w) s).2 = append_log s l /\
    trial_calls l = [c] /\
    forallb (fun ev => negb (is_build ev)) l = true.
Proof.
  rewrite compile_and_load_run.
  destruct (toolchain_steps_calls w c s) as [Hcalls Hnb].
  destruct (test_compile_result w c s) as [lib_file|e]; eexists;
    (split; [reflexivity|]).
  - by rewrite trial_calls_app, forallb_app, Hcalls, Hnb.
  - done.
Qed.

Lemma tf_libs_trial_calls (w : world) (lib_dirs cpp_flags : list string) :
  one_call_trial (tf_libs_trial w lib_dirs cpp_flags)
                 (tf_libs_call lib_dirs cpp_flags).
Proof. intros c s. apply compile_and_load_calls. Qed.

Lemma tf_abi_trial_calls (w : world)
    (include_dirs lib_dirs libs cpp_flags : list string) :
  one_call_trial (tf_abi_trial w include_dirs lib_dirs libs cpp_flags)
                 (tf_abi_call include_dirs lib_dirs libs cpp_flags).
Proof. intros c s. apply compile_and_load_calls. Qed.

(** ** The loop of a probe *)

Lemma compile_or_link_error_is_Exception (e : exn) :
  is_compile_or_link_error e = true -> is_Exception e = true.
Proof. by destruct e. Qed.

Lemma record_reason_other (w : world) (see_above prefix : string) (e : exn) :
  is_compile_or_link_error e = false ->
  record_reason w see_above prefix e = prefix +:+ format_exc w e.
Proof. intros H. unfold record_reason. by rewrite H. Qed.

Section Loop.
Context {C : Type} (w : world) (see_above prefix : string).
Context (trial : C -> M unit).

Lemma try_candidates_win (c : C) (rest : list C) (last_err : option string)
    (s s' : state) (u : unit) :
  trial c s = (Return u, s') ->
  try_candidates w see_above prefix trial (c :: rest) last_err s =
    (Return c, s').
Proof. intros Ht. simpl. by rewrite Ht. Qed.

Lemma try_candidates_caught (c : C) (rest : list C)
    (last_err : option string) (s s' : state) (e : exn) :
  trial c s = (Raise e, s') ->
  is_Exception e = true ->
  try_candidates w see_above prefix trial (c :: rest) last_err s =
    try_candidates w see_above prefix trial rest
      (Some (record_reason w see_above prefix e)) s'.
Proof.
  intros Ht He. simpl. rewrite Ht. unfold record_reason.
  destruct (is_compile_or_link_error e); [done|]. by rewrite He.
Qed.

Lemma try_candidates_escape (c : C) (rest : list C)
    (last_err : option string) (s s' : state) (e : exn) :
  trial c s = (Raise e, s') ->
  is_Exception e = false ->
  try_candidates w see_above prefix trial (c :: rest) last_err s =
    (Raise e, s').
Proof.
  intros Ht He. simpl. rewrite Ht.
  destruct (is_compile_or_link_error e) eqn:Hcl.
  - apply compile_or_link_error_is_Exception in Hcl. congruence.
  - by rewrite He.
Qed.

(** Candidates that fail in turn are passed over. *)
Lemma try_candidates_skip (pre rest : list C) (last_err : option string)
    (s s1 : state) :
  fail_in_turn trial pre s = Some s1 ->
  exists last_err',
    try_candidates w see_above prefix trial (pre ++ rest) last_err s =
      try_candidates w see_above prefix trial rest last_err' s1.
Proof.
  revert last_err s.
  induction pre as [|x pre IH]; intros last_err s; simpl fail_in_turn.
  - intros [= <-]. by exists last_err.
  - destruct (trial x s) as [[u|e] s0] eqn:Hx; [discriminate|].
    destruct (is_Exception e) eqn:He; [|discriminate].
    intros Hpre.
    destruct (IH (Some (record_reason w see_above prefix e)) s0 Hpre)
      as (last_err' & Hrun).
    exists last_err'. cbn [app].
    by rewrite (try_candidates_caught _ _ _ _ _ _ Hx He).
Qed.

Lemma attempted_skip (pre rest : list C) (s s1 : state) :
  fail_in_turn trial pre s = Some s1 ->
  attempted trial (pre ++ rest) s = pre ++ attempted trial rest s1.
Proof.
  revert s. induction pre as [|x pre IH]; intros s; simpl.
  - by intros [= <-].
  - destruct (trial x s) as [[u|e] s0]; [discriminate|].
    destruct (is_Exception e); [|discriminate].
    intros Hpre. by rewrite (IH s0 Hpre).
Qed.

Lemma attempted_head (c : C) (rest : list C) (s : state) :
  exists more, attempted trial (c :: rest) s = c :: more.
Proof.
  simpl. destruct (trial c s) as [[u|e] s']; [by exists []|].
  destruct (is_Exception e); eauto.
Qed.

(** What the loop raises. *)
Lemma try_candidates_raise (candidates : list C) (last_err : option string)
    (s s' : state) (e : exn) :
  try_candidates w see_above prefix trial candidates last_err s =
    (Raise e, s') ->
  (is_Exception e = true ->
   exists reason,
     e = DistutilsPlatformError reason /\
     (candidates <> [] \/ last_err <> None -> exists msg, reason = Some msg))
  /\
  (is_Exception e = false ->
   exists c s0, In c candidates /\ trial c s0 = (Raise e, s')).
Proof.
  revert last_err s.
  induction candidates as [|c rest IH]; intros last_err s; simpl.
  - intros [= <- <-]. split; [|done]. intros _. exists last_err.
    split; [done|]. intros [H|H]; [done|]. destruct last_err; [eauto|done].
  - destruct (trial c s) as [[u|e0] s0] eqn:Hc; [discriminate|].
    assert (Hrest : forall msg,
              try_candidates w see_above prefix trial rest (Some msg) s0 =
                (Raise e, s') ->
              (is_Exception e = true ->
               exists reason,
                 e = DistutilsPlatformError reason /\
                 (c :: rest <> [] \/ last_err <> None ->
                  exists msg, reason = Some msg)) /\
              (is_Exception e = false ->
               exists c0 s1,
                 (c = c0 \/ In c0 rest) /\ trial c0 s1 = (Raise e, s'))).
    { intros msg Hrun. destruct (IH _ _ Hrun) as [Hyes Hno]. split.
      - intros He. destruct (Hyes He) as (reason & -> & Hmsg).
        exists reason. split; [done|]. intros _. apply Hmsg. by right.
      - intros He. destruct (Hno He) as (c0 & s1 & Hin & Hraise). eauto. }
    destruct (is_compile_or_link_error e0); [apply Hrest|].
    destruct (is_Exception e0) eqn:He0; [apply Hrest|].
    intros [= <- <-]. split; [congruence|]. eauto.
Qed.

(** What the loop returns. *)
Lemma try_candidates_return (candidates : list C) (last_err : option string)
    (s s' : state) (c : C) :
  try_candidates w see_above prefix trial candidates last_err s =
    (Return c, s') ->
  In c candidates.
Proof.
  revert last_err s.
  induction candidates as [|x rest IH]; intros last_err s; simpl.
  - discriminate.
  - destruct (trial x s) as [[u|e0] s0].
    + intros [= <- _]. by left.
    + destruct (is_compile_or_link_error e0); [right; eauto|].
      destruct (is_Exception e0); [right; eauto|discriminate].
Qed.

Context (call_of : C -> test_compile_call).
Hypothesis Hcalls : one_call_trial trial call_of.

(** The trials of the loop are those of the candidates it tries. *)
Lemma try_candidates_trace (candidates : list C) (last_err : option string)
    (s : state) :
  exists l,
    (try_candidates w see_above prefix trial candidates last_err s).2 =
      append_log s l /\
    trial_calls l = map call_of (attempted trial candidates s) /\
    forallb (fun ev => negb (is_build ev)) l = true.
Proof.
  revert last_err s.
  induction candidates as [|c rest IH]; intros last_err s; simpl.
  - exists []. by rewrite append_log_nil.
  - destruct (Hcalls c s) as (l1 & Hl1 & Hc1 & Hnb1).
    destruct (trial c s) as [[u|e] s1]; cbn [snd] in Hl1; subst s1.
    { exists l1. done. }
    assert (Hrest : forall msg, exists l,
              (try_candidates w see_above prefix trial rest (Some msg)
                 (append_log s l1)).2 = append_log s l /\
              trial_calls l =
                map call_of (c :: attempted trial rest (append_log s l1)) /\
              forallb (fun ev => negb (is_build ev)) l = true).
    { intros msg.
      destruct (IH (Some msg) (append_log s l1)) as (l2 & Hl2 & Hc2 & Hnb2).
      exists (l1 ++ l2).
      rewrite Hl2, append_log_app, trial_calls_app, Hc1, Hc2, forallb_app,
        Hnb1, Hnb2.
      done. }
    destruct (is_compile_or_link_error e) eqn:Hcl.
    { rewrite (compile_or_link_error_is_Exception e Hcl). apply Hrest. }
    destruct (is_Exception e); [apply Hrest|].
    exists l1. done.
Qed.

End Loop.

(** ** The three probes *)

Lemma get_cpp_flags_from_probe (w : world) :
  probe_of w cpp_flags_see_above cpp_flags_last_error (cpp_flags_trial w) id
           (get_cpp_flags_from w).
Proof.
  intros candidates s. unfold get_cpp_flags_from.
  by destruct (try_candidates _ _ _ _ _ _ s) as [[c|e] s'].
Qed.

Lemma get_tf_libs_from_probe (w : world) (lib_dirs cpp_flags : list string) :
  probe_of w tf_libs_see_above tf_libs_last_error
           (tf_libs_trial w lib_dirs cpp_flags) id
           (get_tf_libs_from w lib_dirs cpp_flags).
Proof.
  intros candidates s. unfold get_tf_libs_from.
  by destruct (try_candidates _ _ _ _ _ _ s) as [[c|e] s'].
Qed.

Lemma get_tf_abi_from_probe (w : world)
    (include_dirs lib_dirs libs cpp_flags : list string) :
  probe_of w tf_abi_see_above tf_abi_last_error
           (tf_abi_trial w include_dirs lib_dirs libs cpp_flags)
           (fun cxx11_abi => (cxx11_abi_macro, cxx11_abi))
           (get_tf_abi_from w include_dirs lib_dirs libs cpp_flags).
Proof.
  intros candidates s. unfold get_tf_abi_from. rewrite run_bind.
  by destruct (try_candidates _ _ _ _ _ _ s) as [[c|e] s'].
Qed.

Section ProbeFacts.
Context {C R : Type} (w : world) (run : list C -> M R).
Context (trial : C -> M unit) (call_of : C -> test_compile_call).
Context (answer : C -> R) (see_above last_error : string).
Hypothesis Hprobe : probe_of w see_above last_error trial answer run.
Hypothesis Hcalls : one_call_trial trial call_of.

Lemma probe_trace (candidates : list C) (s : state) :
  exists l,
    (run candidates s).2 = append_log s l /\
    trial_calls l = map call_of (attempted trial candidates s) /\
    forallb (fun ev => negb (is_build ev)) l = true.
Proof.
  destruct (try_candidates_trace w see_above last_error trial call_of Hcalls
              candidates None s) as (l & Hl & H).
  exists l. split; [|done]. rewrite Hprobe.
  by destruct (try_candidates _ _ _ _ _ _ s) as [[c|e] s'].
Qed.

Lemma probe_return (candidates : list C) (s s' : state) (r : R) :
  run candidates s = (Return r, s') ->
  exists c, In c candidates /\ r = answer c.
Proof.
  rewrite Hprobe.
  destruct (try_candidates _ _ _ _ _ _ s) as [[c|e] s0] eqn:Hrun;
    intros [= <- <-].
  exists c. split; [|done]. by eapply try_candidates_return.
Qed.

Lemma probe_trials (candidates : list C) (s s' : state) (r : result R) :
  run candidates s = (r, s') ->
  trial_calls (events_since s s') = map call_of (attempted trial candidates s).
Proof.
  intros Hrun. destruct (probe_trace candidates s) as (l & Hl & Hc & _).
  rewrite Hrun in Hl. cbn [snd] in Hl. subst s'.
  by rewrite events_since_append_log.
Qed.

Lemma probe_first_success :
  first_success_wins_for run trial call_of answer.
Proof.
  intros pre post c s s1 Hpre Hc.
  destruct (trial c s1) as [[[]|e] s2] eqn:Htrial; [|discriminate].
  cbn [snd].
  assert (Hrun : run (pre ++ c :: post) s = (Return (answer c), s2)).
  { rewrite Hprobe.
    destruct (try_candidates_skip w see_above last_error trial pre
                (c :: post) None s s1 Hpre) as (last_err' & ->).
    by rewrite (try_candidates_win _ _ _ _ _ _ _ _ _ _ Htrial). }
  split; [done|]. rewrite (probe_trials _ _ _ _ Hrun).
  rewrite (attempted_skip trial pre (c :: post) s s1 Hpre). simpl.
  by rewrite Htrial.
Qed.

Lemma probe_last_reason :
  last_reason_reported_for w run trial call_of see_above last_error.
Proof.
  intros pre c e s s1 Hpre Hc He.
  destruct (trial c s1) as [[u|e'] s2] eqn:Htrial; [discriminate|].
  cbn [fst snd] in *. injection Hc as ->.
  assert (Hrun : run (pre ++ [c]) s =
            (Raise (DistutilsPlatformError
                      (Some (record_reason w see_above last_error e))), s2)).
  { rewrite Hprobe.
    destruct (try_candidates_skip w see_above last_error trial pre
                [c] None s s1 Hpre) as (last_err' & ->).
    by rewrite (try_candidates_caught _ _ _ _ _ _ _ _ _ _ Htrial He). }
  split; [done|]. rewrite (probe_trials _ _ _ _ Hrun).
  rewrite (attempted_skip trial pre [c] s s1 Hpre). simpl.
  by rewrite Htrial, He.
Qed.

Lemma probe_escape (pre post : list C) (c : C) (e : exn) (s s1 : state) :
  fail_in_turn trial pre s = Some s1 ->
  (trial c s1).1 = Raise e ->
  is_Exception e = false ->
  run (pre ++ c :: post) s = (Raise e, (trial c s1).2) /\
  trial_calls (events_since s (trial c s1).2) = map call_of (pre ++ [c]).
Proof.
  intros Hpre Hc He.
  destruct (trial c s1) as [[u|e'] s2] eqn:Htrial; [discriminate|].
  cbn [fst snd] in *. injection Hc as ->.
  assert (Hrun : run (pre ++ c :: post) s = (Raise e, s2)).
  { rewrite Hprobe.
    destruct (try_candidates_skip w see_above last_error trial pre
                (c :: post) None s s1 Hpre) as (last_err' & ->).
    by rewrite (try_candidates_escape _ _ _ _ _ _ _ _ _ _ Htrial He). }
  split; [done|]. rewrite (probe_trials _ _ _ _ Hrun).
  rewrite (attempted_skip trial pre (c :: post) s s1 Hpre). simpl.
  by rewrite Htrial, He.
Qed.

Lemma probe_other_exception :
  other_exception_recorded_for w run trial call_of answer last_error.
Proof.
  intros pre c e s s1 Hpre Hc Hother. split.
  2:{ intros He post. by apply probe_escape. }
  intros He.
  destruct (probe_last_reason pre c e s s1 Hpre Hc He) as [Hlast Hcalls'].
  rewrite (record_reason_other w see_above) in Hlast by done.
  split; [|done].
  intros c' post.
  destruct (trial c s1) as [[u|e'] s2] eqn:Htrial; [discriminate|].
  cbn [fst snd] in *. injection Hc as ->.
  assert (Hpre' : fail_in_turn trial (pre ++ [c]) s = Some s2).
  { clear -Hpre Htrial He. revert s Hpre.
    induction pre as [|x pre IH]; intros s; simpl.
    - intros [= ->]. by rewrite Htrial, He.
    - destruct (trial x s) as [[u|e0] s0]; [discriminate|].
      destruct (is_Exception e0); [apply IH|discriminate]. }
  replace (pre ++ c :: c' :: post) with ((pre ++ [c]) ++ c' :: post)
    by (by rewrite <- app_assoc).
  destruct (run ((pre ++ [c]) ++ c' :: post) s) as [r s'] eqn:Hrun.
  destruct (attempted_head trial c' post s2) as (more & Hmore).
  exists r, s', (map call_of more). split; [done|]. split.
  - rewrite (probe_trials _ _ _ _ Hrun).
    rewrite (attempted_skip trial (pre ++ [c]) (c' :: post) s s2 Hpre').
    rewrite Hmore, !map_app, <- !app_assoc. reflexivity.
  - intros Hc'.
    destruct (probe_first_success (pre ++ [c]) post c' s s2 Hpre' Hc')
      as [Hwin _].
    rewrite Hrun in Hwin. by injection Hwin as ->.
Qed.

Lemma probe_lets_through : lets_through_for run trial.
Proof.
  intros candidates s s' e. rewrite Hprobe.
  destruct (try_candidates _ _ _ _ _ _ s) as [[c|e0] s0] eqn:Hrun;
    intros [= <- <-].
  destruct (try_candidates_raise _ _ _ _ _ _ _ _ _ Hrun) as [Hyes Hno].
  split; [|done].
  intros He. destruct (Hyes He) as (reason & -> & Hmsg).
  exists reason. split; [done|]. intros Hne. apply Hmsg. by left.
Qed.

End ProbeFacts.

(** ** The claims about the probes *)



(** C6. When every candidate of a probe fails, the probe raises
    [DistutilsPlatformError] and the message it carries is the reason
    recorded for the last candidate tried: when the trials of the candidates
    fail one after the other, each with a [CompileError], a [LinkError] or
    any other instance of [Exception], the message is the one recorded for
    the exception of the last trial; what was recorded for the earlier ones
    plays no part. *)
Theorem last_reason_reported (w : world) :
  last_reason_reported_for w (get_cpp_flags_from w) (cpp_flags_trial w)
    cpp_flags_call cpp_flags_see_above cpp_flags_last_error /\
  (forall lib_dirs cpp_flags,
     last_reason_reported_for w (get_tf_libs_from w lib_dirs cpp_flags)
       (tf_libs_trial w lib_dirs cpp_flags)
       (tf_libs_call lib_dirs cpp_flags)
       tf_libs_see_above tf_libs_last_error) /\
  (forall include_dirs lib_dirs libs cpp_flags,
     last_reason_reported_for w
       (get_tf_abi_from w include_dirs lib_dirs libs cpp_flags)
       (tf_abi_trial w include_dirs lib_dirs libs cpp_flags)
       (tf_abi_call include_dirs lib_dirs libs cpp_flags)
       tf_abi_see_above tf_abi_last_error).
Proof.
  split; [|split]; intros.
  - eapply probe_last_reason;
      [apply get_cpp_flags_from_probe | apply cpp_flags_trial_calls].
  - eapply probe_last_reason;
      [apply get_tf_libs_from_probe | apply tf_libs_trial_calls].
  - eapply probe_last_reason;
      [apply get_tf_abi_from_probe | apply tf_abi_trial_calls].
Qed.

Lemma last_reason_reported_witness :
  (exists s',
     get_cpp_flags two_failures_world initial_state =
       (Raise (DistutilsPlatformError (Some cpp_flags_see_above)), s') /\
     trial_calls (events_since initial_state s') =
       [cpp_flags_call default_flags; cpp_flags_call libcxx_flags]) /\
  (exists s',
     get_tf_libs hopeless_world ["/tf"] default_flags initial_state =
       (Raise (DistutilsPlatformError
                 (Some (tf_libs_last_error +:+
                        "NotFoundError: undefined symbol"))), s') /\
     trial_calls (events_since initial_state s') =
       [tf_libs_call ["/tf"] default_flags ["tensorflow_framework"];
        tf_libs_call ["/tf"] default_flags []]) /\
  (exists s',
     get_tf_abi hopeless_world ["/tf/include"] ["/tf"] [] default_flags
                initial_state =
       (Raise (DistutilsPlatformError
                 (Some (tf_abi_last_error +:+
                        "NotFoundError: undefined symbol, ABI 1"))), s') /\
     trial_calls (events_since initial_state s') =
       [tf_abi_call ["/tf/include"] ["/tf"] [] default_flags "0";
        tf_abi_call ["/tf/include"] ["/tf"] [] default_flags "1"]).
Proof.
  split; [|split]; eexists.
  - destruct (last_reason_reported two_failures_world) as (Hcpp & _).
    apply (Hcpp [default_flags] libcxx_flags (CompileError "unknown option")
             initial_state
             (cpp_flags_trial two_failures_world default_flags
                              initial_state).2);
      vm_compute; reflexivity.
  - destruct (last_reason_reported hopeless_world) as (_ & Hlibs & _).
    apply (Hlibs ["/tf"] default_flags [["tensorflow_framework"]] []
             (OtherException "NotFoundError" "undefined symbol")
             initial_state
             (tf_libs_trial hopeless_world ["/tf"] default_flags
                            ["tensorflow_framework"] initial_state).2);
      vm_compute; reflexivity.
  - destruct (last_reason_reported hopeless_world) as (_ & _ & Habi).
    apply (Habi ["/tf/include"] ["/tf"] [] default_flags ["0"] "1"
             (OtherException "NotFoundError" "undefined symbol, ABI 1")
             initial_state
             (tf_abi_trial hopeless_world ["/tf/include"] ["/tf"] []
                           default_flags "0" initial_state).2);
      vm_compute; reflexivity.
Defined.

(** C3, as claimed, fails: on a host whose compiler is missing unless
    [-stdlib=libc++] is requested, the first trial of [get_cpp_flags] raises
    an [OSError], which is neither a [CompileError] nor a [LinkError]; the
    probe swallows it, tries the second candidate and returns it. *)
Lemma other_exception_is_not_fatal :
  let w := libcxx_world crash in
  (cpp_flags_trial w default_flags initial_state).1 = Raise crash /\
  is_compile_or_link_error crash = false /\
  (get_cpp_flags w initial_state).1 = Return libcxx_flags /\
  trial_calls (log (get_cpp_flags w initial_state).2) =
    [cpp_flags_call default_flags; cpp_flags_call libcxx_flags] /\
  ~ other_exception_fatal_for (get_cpp_flags_from w) (cpp_flags_trial w)
      cpp_flags_call.
Proof.
  cbv zeta. split; [reflexivity|]. split; [reflexivity|].
  split; [reflexivity|]. split; [reflexivity|].
  intros Hfatal.
  destruct (Hfatal [] [libcxx_flags] default_flags crash initial_state
                   initial_state eq_refl eq_refl eq_refl)
    as (e' & s' & Hrun & _).
  vm_compute in Hrun. discriminate Hrun.
Qed.

(** C3, amended.  In every probe an exception raised by a trial that is
    neither a [CompileError] nor a [LinkError] but is an instance of
    [Exception] is caught like those: the probe records the message ending
    in [Last error:] followed by the full traceback and goes on to the next
    candidate, which wins if its trial succeeds; the record, traceback
    included, is what the probe reports in its [DistutilsPlatformError] when
    that candidate was the last one.  Only an exception that is not an
    instance of [Exception] ([KeyboardInterrupt], [SystemExit]) is fatal at
    once: the probe raises it as it is, in the state in which the trial
    ended, and tries no further candidate. *)
Theorem other_exception_recorded (w : world) :
  other_exception_recorded_for w (get_cpp_flags_from w) (cpp_flags_trial w)
    cpp_flags_call id cpp_flags_last_error /\
  (forall lib_dirs cpp_flags,
     other_exception_recorded_for w (get_tf_libs_from w lib_dirs cpp_flags)
       (tf_libs_trial w lib_dirs cpp_flags)
       (tf_libs_call lib_dirs cpp_flags) id tf_libs_last_error) /\
  (forall include_dirs lib_dirs libs cpp_flags,
     other_exception_recorded_for w
       (get_tf_abi_from w include_dirs lib_dirs libs cpp_flags)
       (tf_abi_trial w include_dirs lib_dirs libs cpp_flags)
       (tf_abi_call include_dirs lib_dirs libs cpp_flags)
       (fun cxx11_abi => (cxx11_abi_macro, cxx11_abi)) tf_abi_last_error).
Proof.
  split; [|split]; intros.
  - eapply probe_other_exception;
      [apply get_cpp_flags_from_probe | apply cpp_flags_trial_calls].
  - eapply probe_other_exception;
      [apply get_tf_libs_from_probe | apply tf_libs_trial_calls].
  - eapply probe_other_exception;
      [apply get_tf_abi_from_probe | apply tf_abi_trial_calls].
Qed.

Lemma other_exception_recorded_witness :
  (exists r s' more,
     get_cpp_flags (libcxx_world crash) initial_state = (r, s') /\
     trial_calls (events_since initial_state s') =
       [cpp_flags_call default_flags; cpp_flags_call libcxx_flags] ++ more /\
     r = Return libcxx_flags) /\
  (exists s',
     get_cpp_flags_from (libcxx_world crash) [default_flags] initial_state =
       (Raise (DistutilsPlatformError
                 (Some (cpp_flags_last_error +:+ show_exn crash))), s') /\
     trial_calls (events_since initial_state s') =
       [cpp_flags_call default_flags]) /\
  (exists s',
     get_cpp_flags (libcxx_world interrupt) initial_state =
       (Raise interrupt, s') /\
     trial_calls (events_since initial_state s') =
       [cpp_flags_call default_flags]).
Proof.
  destruct (other_exception_recorded (libcxx_world crash)) as (Hcpp & _).
  destruct (Hcpp [] default_flags crash initial_state initial_state
              eq_refl eq_refl eq_refl) as (Hcaught & _).
  destruct (Hcaught eq_refl) as (Hnext & Hlast & Hcalls).
  destruct (other_exception_recorded (libcxx_world interrupt)) as (Hint & _).
  destruct (Hint [] default_flags interrupt initial_state initial_state
              eq_refl eq_refl eq_refl) as (_ & Hfatal).
  split; [|split].
  - destruct (Hnext libcxx_flags []) as (r & s' & more & Hrun & Htrials & Hr).
    exists r, s', more. split; [exact Hrun|]. split; [exact Htrials|].
    apply Hr. vm_compute. reflexivity.
  - eexists. split; [exact Hlast | exact Hcalls].
  - eexists. exact (Hfatal eq_refl [libcxx_flags]).
Defined.

(** ** What each function of the script emits *)

Ltac emits_step :=
  first
    [ apply emits_ret | apply emits_raise | apply emits_call
    | apply emits_history
    | apply emits_get_ext | apply emits_os_path_exists
    | apply emits_getattr | apply emits_if
    | apply emits_emit
    | apply emits_import_module
    | apply emits_try_candidates; intros ?
    | apply emits_bind; [|intros ?] ].

Ltac emits_steps := cbv zeta; repeat emits_step.

Lemma emits_test_compile (P : event -> bool) (w : world)
    (c : test_compile_call) :
  P (EvTestCompile c) = true ->
  (forall ev, is_toolchain_step ev = true -> P ev = true) ->
  emits P (test_compile w c).
Proof.
  intros Hc Ht. unfold test_compile, compile, link_shared_object.
  emits_steps; first [exact Hc | by apply Ht].
Qed.

Lemma emits_load (P : event -> bool) (w : world) (lib_file : string) :
  P (EvLoadOpLibrary lib_file) = true -> emits P (load w lib_file).
Proof. intros H. unfold load. emits_steps. exact H. Qed.

Lemma emits_get_cpp_flags (w : world) :
  emits is_cpp_probe_step (get_cpp_flags w).
Proof.
  unfold get_cpp_flags, get_cpp_flags_from, cpp_flags_trial.
  apply emits_try_candidates. intros cpp_flags.
  apply emits_bind; [|intros ?; apply emits_ret].
  apply emits_test_compile; [reflexivity|]. by intros [].
Qed.

Lemma emits_get_common_options (w : world) :
  emits is_cpp_probe_step (get_common_options w).
Proof.
  unfold get_common_options.
  apply emits_bind; [apply emits_get_cpp_flags|]. intros ?. apply emits_ret.
Qed.

Lemma toolchain_step_is_probe_step (ev : event) :
  is_toolchain_step ev = true -> is_framework_probe_step ev = true.
Proof. by destruct ev. Qed.

Lemma emits_check_tf_version (w : world) :
  emits is_framework_probe_step (check_tf_version w).
Proof.
  unfold check_tf_version. apply emits_try_except.
  - emits_steps. reflexivity.
  - intros e h He. destruct e; simplify_eq; apply emits_raise.
Qed.

Lemma emits_get_tf_libs (w : world) (lib_dirs cpp_flags : list string) :
  emits is_framework_probe_step (get_tf_libs w lib_dirs cpp_flags).
Proof.
  unfold get_tf_libs, get_tf_libs_from, tf_libs_trial.
  apply emits_try_candidates. intros tf_libs. apply emits_bind.
  - apply emits_test_compile;
      [reflexivity | apply toolchain_step_is_probe_step].
  - intros lib_file. by apply emits_load.
Qed.

Lemma emits_get_tf_abi (w : world)
    (include_dirs lib_dirs libs cpp_flags : list string) :
  emits is_framework_probe_step
        (get_tf_abi w include_dirs lib_dirs libs cpp_flags).
Proof.
  unfold get_tf_abi, get_tf_abi_from, tf_abi_trial.
  apply emits_bind; [|intros ?; apply emits_ret].
  apply emits_try_candidates. intros cxx11_abi. apply emits_bind.
  - apply emits_test_compile;
      [reflexivity | apply toolchain_step_is_probe_step].
  - intros lib_file. by apply emits_load.
Qed.

Lemma emits_get_tf_flags (w : world) (cpp_flags : list string) :
  emits is_framework_probe_step (get_tf_flags w cpp_flags).
Proof.
  unfold get_tf_flags. apply emits_bind.
  { by apply emits_import_module. }
  intros tf. apply emits_try_except.
  - emits_steps.
  - intros e h He. destruct e; simplify_eq.
    apply emits_bind.
    { unfold get_tf_include_dirs. emits_steps. reflexivity. }
    intros tf_include_dirs. apply emits_bind.
    { unfold get_tf_lib_dirs. emits_steps. reflexivity. }
    intros tf_lib_dirs. apply emits_bind; [apply emits_get_tf_libs|].
    intros tf_libs. apply emits_bind; [apply emits_get_tf_abi|].
    intros tf_abi. apply emits_ret.
Qed.

(** ** The three builds *)

Lemma run_build_common_extension (w : world) (options : BuildOptions)
    (abi_compile_flags : list string) (s : state) :
  let core := common_lib_settings options abi_compile_flags (common_lib s) in
  build_common_extension w options abi_compile_flags s =
    (result_of (build_extension w Common_lib core),
     mkState core (numpy_lib s) (tf_lib s)
             (log s ++ [EvBuildExtension Common_lib core])).
Proof.
  cbv zeta.
  unfold build_common_extension, run_build_extension, get_ext, set_ext, emit,
    append_log, mbind, M_bind.
  cbn [common_lib numpy_lib tf_lib log].
  by destruct (build_extension w Common_lib _).
Qed.

Lemma run_build_numpy_extension (w : world) (options : BuildOptions)
    (abi_compile_flags : list string) (s : state) :
  build_numpy_extension w options abi_compile_flags s =
    match import_numpy w with
    | ImportFails msg =>
        (Raise (ImportError msg), append_log s [EvImport "numpy"])
    | Imported numpy_include =>
        let wrapper :=
          numpy_lib_settings options abi_compile_flags numpy_include
                             (numpy_lib s) in
        (result_of (build_extension w Numpy_lib wrapper),
         mkState (common_lib s) wrapper (tf_lib s)
                 (log s ++ [EvImport "numpy";
                            EvBuildExtension Numpy_lib wrapper]))
    end.
Proof.
  unfold build_numpy_extension, run_build_extension, import_module, get_ext,
    set_ext, emit, append_log, mbind, M_bind.
  cbn [common_lib numpy_lib tf_lib log].
  destruct (import_numpy w) as [msg|inc];
    cbn [raise mret M_ret common_lib numpy_lib tf_lib log]; [reflexivity|].
  rewrite <- app_assoc.
  by destruct (build_extension w Numpy_lib _).
Qed.

Lemma core_and_numpy_trace (w : world) (options : BuildOptions)
    (abi_compile_flags : list string) (s : state) :
  exists l,
    log (build_core_and_numpy w options abi_compile_flags s).2 = log s ++ l /\
    builds l = core_and_numpy_builds w options abi_compile_flags s /\
    stderr l = [] /\
    forallb (fun ev => negb (is_framework_event ev)) l = true.
Proof.
  unfold build_core_and_numpy, core_and_numpy_builds.
  rewrite run_bind, run_build_common_extension. cbv zeta.
  destruct (build_extension w Common_lib _) as [e|]; cbn [result_of].
  - eexists. split; [reflexivity|]. by repeat split.
  - rewrite run_build_numpy_extension. cbn [numpy_lib].
    destruct (import_numpy w) as [msg|inc]; cbn [snd log append_log].
    + rewrite <- app_assoc. eexists. split; [reflexivity|]. by repeat split.
    + rewrite <- app_assoc. eexists. split; [reflexivity|]. by repeat split.
Qed.

Lemma forallb_no_stderr (P : event -> bool) (l : list event) :
  (forall t, P (EvPrintStderr t) = false) ->
  forallb P l = true -> stderr l = [].
Proof.
  intros HP. induction l as [|ev l IH]; simpl; [done|].
  intros [Hev Hl]%andb_prop. destruct ev; auto.
  by rewrite HP in Hev.
Qed.

Lemma forallb_no_builds (P : event -> bool) (l : list event) :
  (forall id ext, P (EvBuildExtension id ext) = false) ->
  forallb P l = true -> builds l = [].
Proof.
  intros HP. induction l as [|ev l IH]; simpl; [done|].
  intros [Hev Hl]%andb_prop. destruct ev; auto.
  by rewrite HP in Hev.
Qed.

Lemma stderr_app (l1 l2 : list event) :
  stderr (l1 ++ l2) = stderr l1 ++ stderr l2.
Proof. apply omap_app. Qed.

(** ** The framework build step *)

Lemma check_tf_version_run (w : world) (s : state) :
  check_tf_version w s =
    (match import_tensorflow w with
     | ImportFails msg =>
         Raise (DistutilsPlatformError (Some
           ("import tensorflow failed, is it installed?" +:+ nl +:+ nl +:+
            format_exc w (ImportError msg))))
     | Imported tf =>
         match tf_version tf with
         | None =>
             Raise (DistutilsPlatformError (Some
               "Your TensorFlow version is outdated.  Horovod requires tensorflow>=1.1.0"))
         | Some v =>
             if str_lt v "1.1.0" then
               Raise (DistutilsPlatformError (Some
                 ("Your TensorFlow version " +:+ v +:+ " is outdated.  " +:+
                  "Horovod requires tensorflow>=1.1.0")))
             else Return tt
         end
     end, append_log s [EvImport "tensorflow"]).
Proof.
  unfold check_tf_version, try_except, import_module, getattr.
  rewrite !run_bind. cbn [emit].
  destruct (import_tensorflow w) as [msg|tf]; cbn [raise mret M_ret];
    [reflexivity|].
  rewrite run_bind.
  destruct (tf_version tf) as [v|]; cbn [raise mret M_ret]; [|reflexivity].
  by destruct (str_lt v "1.1.0").
Qed.

Lemma get_tf_flags_declared (w : world) (cpp_flags : list string) (s : state)
    (tf : tensorflow) (cf lf : list string) :
  import_tensorflow w = Imported tf ->
  get_compile_flags tf = Some cf ->
  get_link_flags tf = Some lf ->
  get_tf_flags w cpp_flags s =
    (Return (cf, lf), append_log s [EvImport "tensorflow"]).
Proof.
  intros Himp Hcf Hlf.
  unfold get_tf_flags, try_except, import_module, getattr.
  rewrite !run_bind. cbn [emit]. rewrite Himp. cbn [mret M_ret].
  rewrite !run_bind, Hcf. cbn [mret M_ret]. rewrite !run_bind, Hlf.
  reflexivity.
Qed.

(** After its two probes, [build_tf_extension] configures and builds
    [tf_lib]. *)
Lemma build_tf_extension_run (w : world) (options : BuildOptions) (s : state) :
  build_tf_extension w options s =
    match check_tf_version w s with
    | (Raise e, s1) => (Raise e, s1)
    | (Return _, s1) =>
        match get_tf_flags w (COMPILE_FLAGS options) s1 with
        | (Raise e, s2) => (Raise e, s2)
        | (Return (tf_compile_flags, tf_link_flags), s2) =>
            let ext :=
              tf_lib_settings options tf_compile_flags tf_link_flags
                              (tf_lib s2) in
            (match build_extension w Tf_lib ext with
             | Some e => Raise e
             | None => Return (abi_flags tf_compile_flags)
             end,
             mkState (common_lib s2) (numpy_lib s2) ext
                     (log s2 ++ [EvBuildExtension Tf_lib ext]))
        end
    end.
Proof.
  unfold build_tf_extension. rewrite run_bind.
  destruct (check_tf_version w s) as [[[]|e] s1]; [|reflexivity].
  rewrite run_bind.
  destruct (get_tf_flags w (COMPILE_FLAGS options) s1)
    as [[[tf_compile_flags tf_link_flags]|e] s2]; [|reflexivity].
  unfold run_build_extension, get_ext, set_ext, emit, append_log, mbind,
    M_bind.
  cbn [common_lib numpy_lib tf_lib log].
  by destruct (build_extension w Tf_lib _).
Qed.

Lemma probe_steps_no_builds (l : list event) :
  forallb is_framework_probe_step l = true -> builds l = [].
Proof. apply forallb_no_builds. done. Qed.

Lemma probe_steps_no_stderr (l : list event) :
  forallb is_framework_probe_step l = true -> stderr l = [].
Proof. apply forallb_no_stderr. done. Qed.

(** What a run of [build_tf_extension] leaves behind: the steps of the
    probes, then at most one build, that of [tf_lib]; the other two extension
    objects are untouched. *)
Lemma build_tf_extension_trace (w : world) (options : BuildOptions)
    (s : state) :
  exists probe_steps tf_builds,
    log (build_tf_extension w options s).2 =
      log s ++ probe_steps ++ tf_builds /\
    forallb is_framework_probe_step probe_steps = true /\
    common_lib (build_tf_extension w options s).2 = common_lib s /\
    numpy_lib (build_tf_extension w options s).2 = numpy_lib s /\
    match (build_tf_extension w options s).1 with
    | Return abi =>
        exists tf_compile_flags tf_link_flags,
          tf_builds =
            [EvBuildExtension Tf_lib
               (tf_lib_settings options tf_compile_flags tf_link_flags
                                (tf_lib s))] /\
          abi = abi_flags tf_compile_flags /\
          build_extension w Tf_lib
            (tf_lib_settings options tf_compile_flags tf_link_flags
                             (tf_lib s)) = None /\
          exists s1 s2,
            get_tf_flags w (COMPILE_FLAGS options) s1 =
              (Return (tf_compile_flags, tf_link_flags), s2)
    | Raise _ =>
        tf_builds = [] \/ exists ext, tf_builds = [EvBuildExtension Tf_lib ext]
    end.
Proof.
  rewrite build_tf_extension_run.
  destruct (emits_check_tf_version w s) as (l1 & Hl1 & HP1).
  destruct (check_tf_version w s) as [[[]|e] s1]; cbn [snd] in Hl1; subst s1.
  2:{ exists l1, []. rewrite app_nil_r. cbn. repeat split; auto. }
  destruct (emits_get_tf_flags w (COMPILE_FLAGS options) (append_log s l1))
    as (l2 & Hl2 & HP2).
  destruct (get_tf_flags w (COMPILE_FLAGS options) (append_log s l1))
    as [[[tf_compile_flags tf_link_flags]|e] s2] eqn:Hflags;
    cbn [snd] in Hl2; subst s2.
  2:{ exists (l1 ++ l2), []. rewrite app_nil_r, append_log_app, forallb_app,
        HP1, HP2. cbn. repeat split; auto. }
  cbv zeta. rewrite append_log_app.
  cbn [fst snd log common_lib numpy_lib tf_lib append_log].
  eexists (l1 ++ l2), [EvBuildExtension Tf_lib _].
  rewrite forallb_app, HP1, HP2, <- !app_assoc.
  split; [reflexivity|]. split; [reflexivity|].
  split; [reflexivity|]. split; [reflexivity|].
  destruct (build_extension w Tf_lib _) as [e|] eqn:Hbuild.
  - right. eauto.
  - exists tf_compile_flags, tf_link_flags. repeat split; eauto.
Qed.

(** ** The orchestrator *)

Lemma build_extensions_run (w : world) (s : state) :
  build_extensions w s =
    match get_common_options w s with
    | (Raise e, s1) => (Raise e, s1)
    | (Return options, s1) =>
        if environ_flag w "JPEG2DCT_WITHOUT_TENSORFLOW" then
          build_core_and_numpy w options [] s1
        else
          match build_tf_extension w options s1 with
          | (Return abi_compile_flags, s2) =>
              build_core_and_numpy w options abi_compile_flags s2
          | (Raise e, s2) =>
              if environ_flag w "JPEG2DCT_WITH_TENSORFLOW" then (Raise e, s2)
              else
                build_core_and_numpy w options []
                  (append_log s2 [EvPrintStderr (skip_message w e)])
          end
    end.
Proof.
  unfold build_extensions. rewrite run_bind.
  destruct (get_common_options w s) as [[options|e] s1]; [|reflexivity].
  rewrite run_bind.
  destruct (environ_flag w "JPEG2DCT_WITHOUT_TENSORFLOW"); cbn [negb].
  - reflexivity.
  - unfold try_except. rewrite run_bind.
    destruct (build_tf_extension w options s1) as [[abi|e] s2].
    + reflexivity.
    + destruct (environ_flag w "JPEG2DCT_WITH_TENSORFLOW"); cbn [negb].
      * reflexivity.
      * rewrite run_bind. reflexivity.
Qed.

Lemma get_common_options_return (w : world) (s s1 : state)
    (options : BuildOptions) :
  get_common_options w s = (Return options, s1) ->
  exists cpp_flags,
    get_cpp_flags w s = (Return cpp_flags, s1) /\
    options = mkOptions [] (get_conda_include_dir w) [] cpp_flags [] [] [].
Proof.
  unfold get_common_options. rewrite run_bind.
  destruct (get_cpp_flags w s) as [[cpp_flags|e] s'];
    cbn [mret M_ret]; intros [= <- <-]; eauto.
Qed.

Lemma cpp_steps_no_builds (l : list event) :
  forallb is_cpp_probe_step l = true -> builds l = [].
Proof. apply forallb_no_builds. done. Qed.

Lemma cpp_steps_no_stderr (l : list event) :
  forallb is_cpp_probe_step l = true -> stderr l = [].
Proof. apply forallb_no_stderr. done. Qed.

Lemma cpp_steps_not_framework (l : list event) :
  forallb is_cpp_probe_step l = true ->
  forallb (fun ev => negb (is_framework_event ev)) l = true.
Proof.
  apply forallb_weaken. intros []; simpl; try done.
  intros ->. done.
Qed.

Lemma abi_flags_app (l1 l2 : list string) :
  abi_flags (l1 ++ l2) = abi_flags l1 ++ abi_flags l2.
Proof. apply List.filter_app. Qed.

Lemma abi_flags_idemp (l : list string) : abi_flags (abi_flags l) = abi_flags l.
Proof.
  unfold abi_flags. induction l as [|x l IH]; simpl; [done|].
  destruct (is_abi_flag x) eqn:Hx; simpl; [rewrite Hx|]; by rewrite ?IH.
Qed.

Lemma core_and_numpy_builds_flags (w : world) (options : BuildOptions)
    (abi_compile_flags : list string) (s : state) :
  Forall (fun b : ext_id * Extension =>
            extra_compile_args b.2 =
              COMPILE_FLAGS options ++ abi_compile_flags /\
            extra_link_args b.2 = LINK_FLAGS options)
         (core_and_numpy_builds w options abi_compile_flags s).
Proof.
  unfold core_and_numpy_builds.
  destruct (build_extension w Common_lib _), (import_numpy w);
    repeat constructor.
Qed.

(** ** The claims about the orchestrator *)

(** C8. When [JPEG2DCT_WITHOUT_TENSORFLOW] is set (to a non-empty value) the
    framework build step is never entered: the run is that of the baseline
    probe followed by the core and wrapper builds with an empty list of ABI
    flags, and its trace holds no action of the framework probe or of the
    framework build (no import of the framework, no framework trial, no
    library load, no build of [tf_lib]). *)
Theorem disabled_framework_is_skipped (w : world) (s : state) :
  environ_flag w "JPEG2DCT_WITHOUT_TENSORFLOW" = true ->
  build_extensions w s =
    (get_common_options w ≫=
       fun options => build_core_and_numpy w options []) s /\
  forallb (fun ev => negb (is_framework_event ev))
          (events_since s (build_extensions w s).2) = true /\
  forall options s1,
    get_common_options w s = (Return options, s1) ->
    builds (events_since s (build_extensions w s).2) =
      core_and_numpy_builds w options [] s1 /\
    Forall (fun b : ext_id * Extension =>
              extra_compile_args b.2 = COMPILE_FLAGS options)
           (core_and_numpy_builds w options [] s1).
Proof.
  intros Hoff. rewrite build_extensions_run, run_bind, Hoff.
  destruct (emits_get_common_options w s) as (l0 & Hl0 & HP0).
  destruct (get_common_options w s) as [[options|e] s1];
    cbn [snd] in Hl0; subst s1.
  - destruct (core_and_numpy_trace w options [] (append_log s l0))
      as (l1 & Hl1 & Hbuilds & _ & Hnf).
    cbn [log append_log] in Hl1. rewrite <- app_assoc in Hl1.
    rewrite (events_since_log _ _ _ Hl1).
    split; [reflexivity|]. split.
    + rewrite forallb_app, Hnf, cpp_steps_not_framework; done.
    + intros options' s1' [= <- <-]. split.
      * by rewrite builds_app, cpp_steps_no_builds, Hbuilds.
      * eapply Forall_impl; [apply core_and_numpy_builds_flags|].
        intros b [Hb _]. by rewrite Hb, app_nil_r.
  - cbn [snd]. rewrite events_since_append_log.
    split; [reflexivity|]. split; [by apply cpp_steps_not_framework|].
    intros ? ? [=].
Qed.

Lemma disabled_framework_is_skipped_witness :
  let final := (build_extensions disabled_world initial_state).2 in
  forallb (fun ev => negb (is_framework_event ev))
          (events_since initial_state final) = true /\
  map (fun b : ext_id * Extension => (b.1, extra_compile_args b.2))
      (builds (events_since initial_state final)) =
    [(Common_lib, default_flags); (Numpy_lib, default_flags)].
Proof.
  destruct (disabled_framework_is_skipped disabled_world initial_state)
    as (_ & Hnone & Hbuilds).
  { vm_compute. reflexivity. }
  split; [exact Hnone|].
  destruct (Hbuilds plain_options
              (get_common_options disabled_world initial_state).2)
    as [-> _]; reflexivity.
Defined.

(** C4. When the framework build step fails and [JPEG2DCT_WITH_TENSORFLOW]
    is set, the orchestrator raises the very exception of the failure and
    stops there: the run ends in the state in which the failure occurred,
    and neither the core library nor the wrapper has been built. *)
Theorem required_framework_failure_is_fatal (w : world) (s s1 s2 : state)
    (options : BuildOptions) (e : exn) :
  environ_flag w "JPEG2DCT_WITHOUT_TENSORFLOW" = false ->
  environ_flag w "JPEG2DCT_WITH_TENSORFLOW" = true ->
  get_common_options w s = (Return options, s1) ->
  build_tf_extension w options s1 = (Raise e, s2) ->
  build_extensions w s = (Raise e, s2) /\
  forallb (fun ev => negb (is_core_or_numpy_build ev))
          (events_since s s2) = true.
Proof.
  intros Hoff Hreq Hopts Htf.
  rewrite build_extensions_run, Hopts, Hoff, Htf, Hreq.
  split; [reflexivity|].
  destruct (emits_get_common_options w s) as (l0 & Hl0 & HP0).
  rewrite Hopts in Hl0. cbn [snd] in Hl0. subst s1.
  destruct (build_tf_extension_trace w options (append_log s l0))
    as (l1 & l2 & Hlog & HP1 & _ & _ & Hres).
  rewrite Htf in Hlog, Hres. cbn [fst snd log append_log] in Hlog, Hres.
  rewrite <- app_assoc in Hlog. rewrite (events_since_log _ _ _ Hlog).
  rewrite !forallb_app. repeat (apply andb_true_intro; split).
  - revert HP0. apply forallb_weaken. by intros [].
  - revert HP1. apply forallb_weaken. by intros [].
  - by destruct Hres as [-> | [ext ->]].
Qed.

Lemma required_framework_failure_is_fatal_witness :
  exists e s2,
    build_extensions required_world initial_state = (Raise e, s2) /\
    is_platform_error e = true /\
    builds (log s2) = [].
Proof.
  destruct (required_framework_failure_is_fatal required_world initial_state
              (get_common_options required_world initial_state).2
              (build_tf_extension required_world plain_options
                 (get_common_options required_world initial_state).2).2
              plain_options
              (DistutilsPlatformError (Some
                 ("import tensorflow failed, is it installed?" +:+ nl +:+ nl
                  +:+ "ImportError: No module named 'tensorflow'"))))
    as [Hrun _].
  - vm_compute. reflexivity.
  - vm_compute. reflexivity.
  - reflexivity.
  - reflexivity.
  - eexists _, _. split; [exact Hrun|]. split; reflexivity.
Defined.

(** C5. When the framework build step fails and [JPEG2DCT_WITH_TENSORFLOW]
    is not set, the orchestrator prints one message on stderr, the notice
    that the plugin is skipped followed by the traceback of the failure, and
    goes on with the core library and the wrapper, both configured with the
    baseline compile flags and no ABI flag: the core library is always
    built, the wrapper whenever the core build returns and [numpy] can be
    imported. *)
Theorem optional_framework_failure_is_skipped (w : world) (s s1 s2 : state)
    (options : BuildOptions) (e : exn) :
  environ_flag w "JPEG2DCT_WITHOUT_TENSORFLOW" = false ->
  environ_flag w "JPEG2DCT_WITH_TENSORFLOW" = false ->
  get_common_options w s = (Return options, s1) ->
  build_tf_extension w options s1 = (Raise e, s2) ->
  let warning :=
    "INFO: Unable to build TensorFlow plugin, will skip it." +:+ nl +:+ nl
    +:+ format_exc w e in
  let final := (build_extensions w s).2 in
  build_extensions w s =
    build_core_and_numpy w options [] (append_log s2 [EvPrintStderr warning])
  /\ stderr (events_since s final) = [warning]
  /\ builds (events_since s2 final) = core_and_numpy_builds w options [] s2
  /\ Forall (fun b : ext_id * Extension =>
               extra_compile_args b.2 = COMPILE_FLAGS options)
            (core_and_numpy_builds w options [] s2)
  /\ (forall numpy_include,
        build_extension w Common_lib
          (common_lib_settings options [] (common_lib s2)) = None ->
        import_numpy w = Imported numpy_include ->
        map fst (builds (events_since s2 final)) = [Common_lib; Numpy_lib]).
Proof.
  intros Hoff Hreq Hopts Htf. cbv zeta.
  rewrite build_extensions_run, Hopts, Hoff, Htf, Hreq.
  fold (skip_message w e).
  set (s3 := append_log s2 [EvPrintStderr (skip_message w e)]).
  destruct (core_and_numpy_trace w options [] s3)
    as (l3 & Hl3 & Hbuilds & Hquiet & _).
  change (core_and_numpy_builds w options [] s3)
    with (core_and_numpy_builds w options [] s2) in Hbuilds.
  assert (Hfrom2 : events_since s2 (build_core_and_numpy w options [] s3).2 =
                   [EvPrintStderr (skip_message w e)] ++ l3).
  { apply events_since_log. rewrite Hl3. unfold s3. cbn [log append_log].
    by rewrite <- app_assoc. }
  split; [reflexivity|]. split; [|split; [|split]].
  - destruct (emits_get_common_options w s) as (l0 & Hl0 & HP0).
    rewrite Hopts in Hl0. cbn [snd] in Hl0. subst s1.
    destruct (build_tf_extension_trace w options (append_log s l0))
      as (l1 & l2 & Hlog & HP1 & _ & _ & Hres).
    rewrite Htf in Hlog, Hres. cbn [fst snd log append_log] in Hlog, Hres.
    rewrite (events_since_log s _
               (l0 ++ l1 ++ l2 ++ [EvPrintStderr (skip_message w e)] ++ l3)).
    + rewrite !stderr_app, cpp_steps_no_stderr, probe_steps_no_stderr,
        Hquiet by done.
      by destruct Hres as [-> | [ext ->]].
    + rewrite Hl3. unfold s3. cbn [log append_log]. rewrite Hlog.
      by rewrite <- !app_assoc.
  - by rewrite Hfrom2, builds_app, Hbuilds.
  - eapply Forall_impl; [apply core_and_numpy_builds_flags|].
    intros b [Hb _]. by rewrite Hb, app_nil_r.
  - intros inc Hcore Hnumpy. rewrite Hfrom2, builds_app, Hbuilds.
    unfold core_and_numpy_builds. by rewrite Hcore, Hnumpy.
Qed.

Lemma optional_framework_failure_is_skipped_witness :
  let final := (build_extensions (no_framework_world ∅) initial_state).2 in
  stderr (events_since initial_state final) =
    ["INFO: Unable to build TensorFlow plugin, will skip it." +:+ nl +:+ nl
     +:+ "DistutilsPlatformError: import tensorflow failed, is it installed?"
     +:+ nl +:+ nl +:+ "ImportError: No module named 'tensorflow'"] /\
  map (fun b : ext_id * Extension => (b.1, extra_compile_args b.2))
      (builds (log final)) =
    [(Common_lib, default_flags); (Numpy_lib, default_flags)].
Proof.
  destruct (optional_framework_failure_is_skipped
              (no_framework_world ∅) initial_state
              (get_common_options (no_framework_world ∅) initial_state).2
              (build_tf_extension (no_framework_world ∅) plain_options
                 (get_common_options (no_framework_world ∅)
                    initial_state).2).2
              plain_options
              (DistutilsPlatformError (Some
                 ("import tensorflow failed, is it installed?" +:+ nl +:+ nl
                  +:+ "ImportError: No module named 'tensorflow'"))))
    as (_ & Hwarn & _).
  - vm_compute. reflexivity.
  - vm_compute. reflexivity.
  - reflexivity.
  - reflexivity.
  - split; [exact Hwarn | reflexivity].
Defined.

(** C1. In every run in which the framework build step succeeds, the list of
    ABI flags it returns is the very list handed to the core build and to the
    wrapper build, and the three extensions are compiled with the same ABI
    macro setting: in each build of the run, the compile arguments that name
    the ABI macro are those of the baseline followed by the returned list. *)
Theorem abi_flags_consistent (w : world) (s s1 s2 : state)
    (options : BuildOptions) (abi : list string) :
  environ_flag w "JPEG2DCT_WITHOUT_TENSORFLOW" = false ->
  get_common_options w s = (Return options, s1) ->
  build_tf_extension w options s1 = (Return abi, s2) ->
  let final := (build_extensions w s).2 in
  build_extensions w s = build_core_and_numpy w options abi s2 /\
  (exists plugin,
     builds (events_since s final) =
       (Tf_lib, plugin) :: core_and_numpy_builds w options abi s2) /\
  Forall (fun b : ext_id * Extension =>
            extra_compile_args b.2 = COMPILE_FLAGS options ++ abi)
         (core_and_numpy_builds w options abi s2) /\
  Forall (fun b : ext_id * Extension =>
            abi_flags (extra_compile_args b.2) =
              abi_flags (COMPILE_FLAGS options) ++ abi)
         (builds (events_since s final)).
Proof.
  intros Hoff Hopts Htf. cbv zeta.
  rewrite build_extensions_run, Hopts, Hoff, Htf.
  destruct (emits_get_common_options w s) as (l0 & Hl0 & HP0).
  rewrite Hopts in Hl0. cbn [snd] in Hl0. subst s1.
  destruct (build_tf_extension_trace w options (append_log s l0))
    as (l1 & l2 & Hlog & HP1 & _ & _ & Hres).
  rewrite Htf in Hlog, Hres. cbn [fst snd log append_log] in Hlog, Hres.
  destruct Hres as (cf & lf & -> & -> & _).
  destruct (core_and_numpy_trace w options (abi_flags cf) s2)
    as (l3 & Hl3 & Hbuilds & _).
  assert (Hall : builds (events_since s
                   (build_core_and_numpy w options (abi_flags cf) s2).2) =
                 (Tf_lib, tf_lib_settings options cf lf
                            (tf_lib (append_log s l0))) ::
                 core_and_numpy_builds w options (abi_flags cf) s2).
  { rewrite (events_since_log s _
               (l0 ++ l1 ++
                [EvBuildExtension Tf_lib
                   (tf_lib_settings options cf lf
                                    (tf_lib (append_log s l0)))] ++ l3)).
    - by rewrite !builds_app, cpp_steps_no_builds, probe_steps_no_builds,
        Hbuilds.
    - rewrite Hl3, Hlog. by rewrite <- !app_assoc. }
  assert (Hcore := core_and_numpy_builds_flags w options (abi_flags cf) s2).
  split; [reflexivity|]. split; [eauto|]. split.
  - eapply Forall_impl; [exact Hcore|]. by intros b [Hb _].
  - rewrite Hall. constructor.
    + cbn. by rewrite abi_flags_app.
    + eapply Forall_impl; [exact Hcore|]. intros b [Hb _].
      by rewrite Hb, abi_flags_app, abi_flags_idemp.
Qed.

Lemma abi_flags_consistent_witness :
  let final := (build_extensions legacy_world initial_state).2 in
  map (fun b : ext_id * Extension =>
         (b.1, abi_flags (extra_compile_args b.2)))
      (builds (events_since initial_state final)) =
    [(Tf_lib, ["-D_GLIBCXX_USE_CXX11_ABI=1"]);
     (Common_lib, ["-D_GLIBCXX_USE_CXX11_ABI=1"]);
     (Numpy_lib, ["-D_GLIBCXX_USE_CXX11_ABI=1"])] /\
  Forall (fun b : ext_id * Extension =>
            abi_flags (extra_compile_args b.2) =
              abi_flags default_flags ++ ["-D_GLIBCXX_USE_CXX11_ABI=1"])
         (builds (events_since initial_state final)).
Proof.
  destruct (abi_flags_consistent legacy_world initial_state
              (get_common_options legacy_world initial_state).2
              (build_tf_extension legacy_world plain_options
                 (get_common_options legacy_world initial_state).2).2
              plain_options ["-D_GLIBCXX_USE_CXX11_ABI=1"])
    as (_ & _ & _ & Hsame).
  - vm_compute. reflexivity.
  - vm_compute. reflexivity.
  - vm_compute. reflexivity.
  - split; [vm_compute; reflexivity | exact Hsame].
Defined.

(** C7, as claimed, fails: with a framework that declares the compile flags
    [-Iinc] and the link flags [-Lfw], [-lfw], these strings reach the build
    of the framework plugin only; the core library is built with the
    baseline compile flags and with no link flag at all. *)
Lemma framework_flags_do_not_reach_the_core :
  let final := (build_extensions plain_world initial_state).2 in
  import_tensorflow plain_world =
    Imported (mkTensorflow (Some "1.15.0") (Some ["-Iinc"])
                           (Some ["-Lfw"; "-lfw"]) "/tf/include" "/tf") /\
  map (fun b : ext_id * Extension =>
         (b.1, extra_compile_args b.2, extra_link_args b.2))
      (builds (log final)) =
    [(Tf_lib, ["-std=c++11"; "-fPIC"; "-O2"; "-Iinc"], ["-Lfw"; "-lfw"]);
     (Common_lib, ["-std=c++11"; "-fPIC"; "-O2"], []);
     (Numpy_lib, ["-std=c++11"; "-fPIC"; "-O2"], [])].
Proof. cbv zeta. split; vm_compute; reflexivity. Qed.

(** C7, amended.  When the framework declares its compile flags and its
    link flags, the build of the framework plugin receives exactly these
    lists, appended in order and unchanged to the baseline compile flags and
    to the baseline link flags (which are empty).  The core library and the
    wrapper receive, of these, only the compile flags that name the ABI
    macro, and none of the link flags. *)
Theorem framework_flags_reach_the_plugin (w : world) (s s1 : state)
    (options : BuildOptions) (tf : tensorflow) (v : string)
    (cf lf : list string) :
  environ_flag w "JPEG2DCT_WITHOUT_TENSORFLOW" = false ->
  get_common_options w s = (Return options, s1) ->
  import_tensorflow w = Imported tf ->
  tf_version tf = Some v ->
  str_lt v "1.1.0" = false ->
  get_compile_flags tf = Some cf ->
  get_link_flags tf = Some lf ->
  build_extension w Tf_lib (tf_lib_settings options cf lf (tf_lib s1)) = None ->
  exists plugin,
    builds (events_since s (build_extensions w s).2) =
      (Tf_lib, plugin) :: core_and_numpy_builds w options (abi_flags cf) s1 /\
    extra_compile_args plugin = COMPILE_FLAGS options ++ cf /\
    extra_link_args plugin = lf /\
    Forall (fun b : ext_id * Extension =>
              extra_compile_args b.2 = COMPILE_FLAGS options ++ abi_flags cf /\
              extra_link_args b.2 = [])
           (core_and_numpy_builds w options (abi_flags cf) s1).
Proof.
  intros Hoff Hopts Himp Hv Hnew Hcf Hlf Hbuild.
  destruct (get_common_options_return _ _ _ _ Hopts) as (cpp & _ & Hoptions).
  assert (Hlink : LINK_FLAGS options = []) by by subst options.
  assert (Htf : build_tf_extension w options s1 =
            (Return (abi_flags cf),
             mkState (common_lib s1) (numpy_lib s1)
                     (tf_lib_settings options cf lf (tf_lib s1))
                     (log s1 ++ [EvImport "tensorflow"; EvImport "tensorflow";
                                 EvBuildExtension Tf_lib
                                   (tf_lib_settings options cf lf
                                                    (tf_lib s1))]))).
  { rewrite build_tf_extension_run, check_tf_version_run, Himp, Hv, Hnew.
    rewrite (get_tf_flags_declared w _ _ tf cf lf) by done.
    cbv zeta. cbn [log common_lib numpy_lib tf_lib append_log].
    rewrite Hbuild, <- !app_assoc. reflexivity. }
  rewrite build_extensions_run, Hopts, Hoff, Htf.
  match goal with
  | |- context [build_core_and_numpy w options (abi_flags cf) ?st] =>
      set (s2 := st)
  end.
  destruct (emits_get_common_options w s) as (l0 & Hl0 & HP0).
  rewrite Hopts in Hl0. cbn [snd] in Hl0.
  destruct (core_and_numpy_trace w options (abi_flags cf) s2)
    as (l3 & Hl3 & Hbuilds & _).
  change (core_and_numpy_builds w options (abi_flags cf) s2)
    with (core_and_numpy_builds w options (abi_flags cf) s1) in Hbuilds.
  exists (tf_lib_settings options cf lf (tf_lib s1)).
  split; [|split; [reflexivity|split]].
  - rewrite (events_since_log s _
               (l0 ++ [EvImport "tensorflow"; EvImport "tensorflow";
                       EvBuildExtension Tf_lib
                         (tf_lib_settings options cf lf (tf_lib s1))] ++ l3)).
    + by rewrite !builds_app, cpp_steps_no_builds, Hbuilds.
    + rewrite Hl3. unfold s2. cbn [log]. rewrite Hl0. cbn [log append_log].
      by rewrite <- !app_assoc.
  - cbn. by rewrite Hlink.
  - eapply Forall_impl; [apply core_and_numpy_builds_flags|].
    intros b [Hb1 Hb2]. by rewrite Hb1, Hb2, Hlink.
Qed.

Lemma framework_flags_reach_the_plugin_witness :
  exists plugin,
    builds (events_since initial_state
              (build_extensions plain_world initial_state).2) =
      (Tf_lib, plugin) ::
      core_and_numpy_builds plain_world plain_options (abi_flags ["-Iinc"])
        (get_common_options plain_world initial_state).2 /\
    extra_compile_args plugin = default_flags ++ ["-Iinc"] /\
    extra_link_args plugin = ["-Lfw"; "-lfw"] /\
    Forall (fun b : ext_id * Extension =>
              extra_compile_args b.2 = default_flags ++ abi_flags ["-Iinc"] /\
              extra_link_args b.2 = [])
           (core_and_numpy_builds plain_world plain_options
              (abi_flags ["-Iinc"])
              (get_common_options plain_world initial_state).2).
Proof.
  apply (framework_flags_reach_the_plugin plain_world initial_state
           (get_common_options plain_world initial_state).2
           plain_options (tf_declaring "1.15.0") "1.15.0"
           ["-Iinc"] ["-Lfw"; "-lfw"]);
    vm_compute; reflexivity.
Defined.

(** C9, as claimed, fails: with [CONDA_PREFIX] unset the baseline include
    list is not empty, it holds [./include]. *)
Lemma conda_include_dir_defaults_to_cwd :
  os_environ plain_world !! "CONDA_PREFIX" = None /\
  (get_common_options plain_world initial_state).1 =
    Return (mkOptions [] ["./include"] [] ["-std=c++11"; "-fPIC"; "-O2"]
                      [] [] []).
Proof. split; vm_compute; reflexivity. Qed.

(** C9, amended.  The baseline options always hold exactly one include
    directory, [os.path.join(prefix, 'include')], where [prefix] is the value
    of [CONDA_PREFIX] when the variable is set and ['.'] when it is not: the
    directory of the declared prefix in the first case, [./include] in the
    second.  The options are returned whenever the probe of the C++ flags
    returns. *)
Theorem conda_include_dir (w : world) (s s1 : state) (cpp_flags : list string) :
  get_cpp_flags w s = (Return cpp_flags, s1) ->
  exists options,
    get_common_options w s = (Return options, s1) /\
    COMPILE_FLAGS options = cpp_flags /\
    match os_environ w !! "CONDA_PREFIX" with
    | Some prefix => INCLUDES options = [path_join prefix "include"]
    | None => INCLUDES options = ["./include"]
    end.
Proof.
  intros Hcpp. unfold get_common_options. rewrite run_bind, Hcpp.
  eexists. split; [reflexivity|]. split; [reflexivity|].
  cbn [INCLUDES]. unfold get_conda_include_dir.
  by destruct (os_environ w !! "CONDA_PREFIX").
Qed.

Lemma conda_include_dir_witness :
  exists options,
    get_common_options conda_world initial_state =
      (Return options, (get_cpp_flags conda_world initial_state).2) /\
    COMPILE_FLAGS options = default_flags /\
    INCLUDES options = ["/opt/conda/include"].
Proof.
  apply (conda_include_dir conda_world initial_state
           (get_cpp_flags conda_world initial_state).2 default_flags).
  vm_compute. reflexivity.
Defined.

(** C10. The version check orders version strings as strings, character by
    character, not as versions: [check_tf_version] raises the platform error
    exactly when the import fails, or the module exposes no [__version__],
    or [__version__] comes before ['1.1.0'] in lexicographic order, and it
    returns otherwise.  So the string ['1.1'], a proper prefix of ['1.1.0'],
    is rejected, although it names a version that is not below 1.1.0. *)
Theorem check_tf_version_is_lexicographic (w : world) (s : state) :
  (raises_platform_error (check_tf_version w s).1 = true <->
     (exists msg, import_tensorflow w = ImportFails msg) \/
     (exists tf, import_tensorflow w = Imported tf /\ tf_version tf = None) \/
     (exists tf v, import_tensorflow w = Imported tf /\
                   tf_version tf = Some v /\ str_lt v "1.1.0" = true)) /\
  (raises_platform_error (check_tf_version w s).1 = false ->
     (check_tf_version w s).1 = Return tt) /\
  str_lt "1.1" "1.1.0" = true /\
  (forall tf, import_tensorflow w = Imported tf ->
              tf_version tf = Some "1.1" ->
              (check_tf_version w s).1 =
                Raise (DistutilsPlatformError (Some
                  "Your TensorFlow version 1.1 is outdated.  Horovod requires tensorflow>=1.1.0"))).
Proof.
  rewrite check_tf_version_run. cbn [fst].
  split; [|split; [|split]].
  - destruct (import_tensorflow w) as [msg|tf] eqn:Himp.
    { split; [eauto|done]. }
    destruct (tf_version tf) as [v|] eqn:Hv.
    2:{ split; [eauto 6|done]. }
    destruct (str_lt v "1.1.0") eqn:Hlt.
    + split; [eauto 8|done].
    + split; [done|].
      intros [[msg [=]] | [(tf' & [= <-] & Hnone) | (tf' & v' & [= <-] & Hv' & Hlt')]];
        congruence.
  - destruct (import_tensorflow w) as [msg|tf]; [done|].
    destruct (tf_version tf) as [v|]; [|done].
    by destruct (str_lt v "1.1.0").
  - reflexivity.
  - intros tf -> ->. reflexivity.
Qed.

(** * Further properties of the script *)

(** ** The probes *)

(** X1. What leaves a probe that does not return.  No instance of
    [Exception] raised by a trial escapes: whatever the toolchain and the
    loader raise, an instance of [Exception] raised by a probe is its own
    [DistutilsPlatformError], which carries a message as soon as the list of
    candidates is not empty.  Anything else that a probe raises is an
    exception that is not an instance of [Exception], raised by the trial of
    one of the candidates, and the probe ends where that trial ended. *)
Theorem what_leaves_a_probe (w : world) :
  lets_through_for (get_cpp_flags_from w) (cpp_flags_trial w) /\
  (forall lib_dirs cpp_flags,
     lets_through_for (get_tf_libs_from w lib_dirs cpp_flags)
                      (tf_libs_trial w lib_dirs cpp_flags)) /\
  (forall include_dirs lib_dirs libs cpp_flags,
     lets_through_for
       (get_tf_abi_from w include_dirs lib_dirs libs cpp_flags)
       (tf_abi_trial w include_dirs lib_dirs libs cpp_flags)).
Proof.
  split; [|split]; intros.
  - eapply probe_lets_through, get_cpp_flags_from_probe.
  - eapply probe_lets_through, get_tf_libs_from_probe.
  - eapply probe_lets_through, get_tf_abi_from_probe.
Qed.

Lemma what_leaves_a_probe_witness :
  (exists reason,
     (get_cpp_flags two_failures_world initial_state).1 =
       Raise (DistutilsPlatformError reason) /\
     exists msg, reason = Some msg) /\
  (exists c s0,
     In c (flags_to_try (libcxx_world interrupt)) /\
     cpp_flags_trial (libcxx_world interrupt) c s0 =
       (Raise interrupt,
        (get_cpp_flags (libcxx_world interrupt) initial_state).2)).
Proof.
  split.
  - destruct (what_leaves_a_probe two_failures_world) as (Hcpp & _).
    destruct (Hcpp (flags_to_try two_failures_world) initial_state
                (get_cpp_flags two_failures_world initial_state).2
                (DistutilsPlatformError (Some cpp_flags_see_above)))
      as [Hyes _]; [vm_compute; reflexivity|].
    destruct (Hyes eq_refl) as (reason & Hreason & Hmsg).
    exists reason. split; [by rewrite <- Hreason | by apply Hmsg].
  - destruct (what_leaves_a_probe (libcxx_world interrupt)) as (Hcpp & _).
    destruct (Hcpp (flags_to_try (libcxx_world interrupt)) initial_state
                (get_cpp_flags (libcxx_world interrupt) initial_state).2
                interrupt)
      as [_ Hno]; [vm_compute; reflexivity|].
    exact (Hno eq_refl).
Defined.

Lemma attempted_two {C : Type} (trial : C -> M unit) (c1 c2 : C) (s : state) :
  attempted trial [c1; c2] s = [c1] \/ attempted trial [c1; c2] s = [c1; c2].
Proof.
  simpl. destruct (trial c1 s) as [[u|e] s1]; [by left|].
  destruct (is_Exception e); [|by left]. right.
  destruct (trial c2 s1) as [[u|e'] s2]; [done|]. by destruct (is_Exception e').
Qed.

(** X2. The probe of the C++ flags only ever answers the default flags or
    the default flags followed by [-stdlib=libc++], after one or two trials.
    macOS tries the libc++ variant first and every other platform the
    default flags: when the trial of the first candidate succeeds it is the
    answer, after that one trial; when it fails and the trial of the other
    candidate, made next, succeeds, that one is the answer. *)
Theorem get_cpp_flags_platform_order (w : world) (s : state) :
  let darwin := String.eqb (sys_platform w) "darwin" in
  let first := if darwin then libcxx_flags else default_flags in
  let second := if darwin then default_flags else libcxx_flags in
  let run := get_cpp_flags w s in
  let s1 := (cpp_flags_trial w first s).2 in
  (forall flags, run.1 = Return flags ->
                 flags = default_flags \/ flags = libcxx_flags) /\
  (1 <= length (trial_calls (events_since s run.2)) <= 2) /\
  ((cpp_flags_trial w first s).1 = Return tt ->
   run = (Return first, s1) /\
   trial_calls (events_since s run.2) = [cpp_flags_call first]) /\
  (forall e,
     (cpp_flags_trial w first s).1 = Raise e ->
     is_Exception e = true ->
     (cpp_flags_trial w second s1).1 = Return tt ->
     run = (Return second, (cpp_flags_trial w second s1).2) /\
     trial_calls (events_since s run.2) =
       [cpp_flags_call first; cpp_flags_call second]).
Proof.
  cbv zeta. unfold get_cpp_flags.
  assert (Hlist : flags_to_try w =
            [if String.eqb (sys_platform w) "darwin"
             then libcxx_flags else default_flags;
             if String.eqb (sys_platform w) "darwin"
             then default_flags else libcxx_flags]).
  { unfold flags_to_try, libcxx_flags.
    by destruct (String.eqb (sys_platform w) "darwin"). }
  rewrite Hlist.
  set (first := if String.eqb (sys_platform w) "darwin"
                then libcxx_flags else default_flags).
  set (second := if String.eqb (sys_platform w) "darwin"
                 then default_flags else libcxx_flags).
  pose proof (probe_first_success w _ _ _ _ _ _
                (get_cpp_flags_from_probe w) (cpp_flags_trial_calls w))
    as Hwins.
  split; [|split; [|split]].
  - intros flags Hret.
    destruct (get_cpp_flags_from w [first; second] s) as [r s'] eqn:Hrun.
    cbn [fst] in Hret. subst r.
    destruct (probe_return w _ _ _ _ _ (get_cpp_flags_from_probe w)
                _ _ _ _ Hrun) as (c & Hin & ->).
    unfold first, second in Hin.
    destruct (String.eqb (sys_platform w) "darwin");
      destruct Hin as [<-|[<-|[]]]; auto.
  - destruct (get_cpp_flags_from w [first; second] s) as [r s'] eqn:Hrun.
    cbn [snd].
    rewrite (probe_trials w _ _ _ _ _ _ (get_cpp_flags_from_probe w)
               (cpp_flags_trial_calls w) _ _ _ _ Hrun).
    rewrite length_map.
    destruct (attempted_two (cpp_flags_trial w) first second s) as [-> | ->];
      simpl; lia.
  - intros Hfirst.
    destruct (Hwins [] [second] first s s eq_refl Hfirst) as [Hrun Htrials].
    cbn [app] in Hrun. by rewrite Hrun.
  - intros e Hfirst He Hsecond.
    assert (Hpre : fail_in_turn (cpp_flags_trial w) [first] s =
                     Some (cpp_flags_trial w first s).2).
    { simpl. destruct (cpp_flags_trial w first s) as [[u|e'] s1];
        [discriminate|].
      cbn [fst snd] in *. injection Hfirst as ->. by rewrite He. }
    destruct (Hwins [first] [] second s _ Hpre Hsecond) as [Hrun Htrials].
    cbn [app] in Hrun. by rewrite Hrun.
Qed.

Lemma get_cpp_flags_platform_order_witness :
  (get_cpp_flags darwin_world initial_state).1 = Return libcxx_flags /\
  (get_cpp_flags plain_world initial_state).1 = Return default_flags /\
  (get_cpp_flags (libcxx_world crash) initial_state).1 = Return libcxx_flags.
Proof.
  split; [|split].
  - destruct (get_cpp_flags_platform_order darwin_world initial_state)
      as (_ & _ & Hfirst & _).
    destruct Hfirst as [Hrun _]; [reflexivity|]. by rewrite Hrun.
  - destruct (get_cpp_flags_platform_order plain_world initial_state)
      as (_ & _ & Hfirst & _).
    destruct Hfirst as [Hrun _]; [reflexivity|]. by rewrite Hrun.
  - destruct (get_cpp_flags_platform_order (libcxx_world crash) initial_state)
      as (_ & _ & _ & Hsecond).
    destruct (Hsecond crash) as [Hrun _];
      [reflexivity | reflexivity | reflexivity |]. by rewrite Hrun.
Defined.

(** ** The baseline *)

(** X3. A failure of the baseline probe is fatal whatever the environment:
    when the probe of the C++ flags raises, the orchestrator raises the same
    exception in the state the probe left; no extension has been built and
    the framework has not been touched.  The exception is the
    [DistutilsPlatformError] of the probe unless it is not an instance of
    [Exception]. *)
Theorem baseline_failure_is_fatal (w : world) (s s1 : state) (e : exn) :
  get_cpp_flags w s = (Raise e, s1) ->
  build_extensions w s = (Raise e, s1) /\
  (is_Exception e = true -> is_platform_error e = true) /\
  builds (events_since s s1) = [] /\
  forallb (fun ev => negb (is_framework_event ev)) (events_since s s1) = true.
Proof.
  intros Hcpp.
  assert (Hopts : get_common_options w s = (Raise e, s1)).
  { unfold get_common_options. by rewrite run_bind, Hcpp. }
  rewrite build_extensions_run, Hopts. split; [reflexivity|].
  split.
  { intros He.
    destruct (probe_lets_through w _ _ _ _ _ (get_cpp_flags_from_probe w)
                _ _ _ _ Hcpp) as [Hyes _].
    by destruct (Hyes He) as (reason & -> & _). }
  destruct (emits_get_cpp_flags w s) as (l & Hl & HP).
  rewrite Hcpp in Hl. cbn [snd] in Hl. subst s1.
  rewrite events_since_append_log.
  split; [by apply cpp_steps_no_builds | by apply cpp_steps_not_framework].
Qed.

Lemma baseline_failure_is_fatal_witness :
  exists s1,
    build_extensions two_failures_world initial_state =
      (Raise (DistutilsPlatformError (Some cpp_flags_see_above)), s1) /\
    builds (events_since initial_state s1) = [].
Proof.
  destruct (baseline_failure_is_fatal two_failures_world initial_state
              (get_cpp_flags two_failures_world initial_state).2
              (DistutilsPlatformError (Some cpp_flags_see_above)))
    as (Hrun & _ & Hnone & _).
  - vm_compute. reflexivity.
  - eexists. split; [exact Hrun | exact Hnone].
Defined.

(** ** The framework build step *)

(** X4. The version check comes first: when [check_tf_version] rejects the
    framework, [build_tf_extension] raises that platform error having done
    nothing but the import; no trial is compiled, no library is loaded and
    [tf_lib] is neither configured nor built. *)
Theorem rejected_framework_is_not_probed (w : world) (options : BuildOptions)
    (s : state) :
  raises_platform_error (check_tf_version w s).1 = true ->
  exists e,
    build_tf_extension w options s =
      (Raise e, append_log s [EvImport "tensorflow"]) /\
    (check_tf_version w s).1 = Raise e /\
    is_platform_error e = true.
Proof.
  rewrite build_tf_extension_run.
  destruct (check_tf_version w s) as [[[]|e] s1] eqn:Hcheck; cbn; [done|].
  intros He. exists e. rewrite check_tf_version_run in Hcheck.
  by injection Hcheck as _ <-.
Qed.

Lemma rejected_framework_is_not_probed_witness :
  exists e,
    build_tf_extension outdated_world plain_options initial_state =
      (Raise e, append_log initial_state [EvImport "tensorflow"]) /\
    (check_tf_version outdated_world initial_state).1 = Raise e /\
    is_platform_error e = true.
Proof.
  apply (rejected_framework_is_not_probed outdated_world plain_options
           initial_state).
  vm_compute. reflexivity.
Defined.

(** ** Trial compiles *)


(** X5. One trial, step by step: the call creates the scratch directory if
    it is missing, writes the source file [<scratch>/<name>.cc], runs the
    compile step on it and runs the link step only if the compile step
    returned.  It returns the name of the shared object exactly when both
    steps return; otherwise it raises what the failing step raised.  The
    compiler answers after the source file is written, the linker after the
    compile step. *)
Theorem test_compile_steps (w : world) (c : test_compile_call) (s : state) :
  let written :=
    EvTestCompile c ::
    (if scratch_dir_exists w s then [] else [EvMakedirs (test_compile_dir w)])
    ++ [EvWriteFile (path_join (test_compile_dir w) (tc_name c +:+ ".cc"))
                    (tc_code c)] in
  let compiled :=
    compiler_compile w (log s ++ written) (compile_args_of w c) in
  let linked :=
    compiler_link_shared_object w
      (log s ++ written ++ [EvCompile (compile_args_of w c)])
      (link_args_of w c) in
  events_since s (test_compile w c s).2 =
    written ++
    EvCompile (compile_args_of w c)
    :: match compiled with
       | None => [EvLink (link_args_of w c)]
       | Some _ => []
       end /\
  (test_compile w c s).1 =
    match compiled, linked with
    | Some e, _ => Raise e
    | None, Some e => Raise e
    | None, None => Return (shared_object_file w c)
    end.
Proof.
  cbv zeta. rewrite test_compile_run. cbn [fst snd].
  rewrite events_since_append_log. split; [reflexivity|].
  unfold test_compile_result, compile_outcome, link_outcome, setup_steps,
    source_file.
  destruct (compiler_compile w _ _) as [e1|]; [reflexivity|].
  by destruct (compiler_link_shared_object w _ _) as [e2|].
Qed.

Lemma loads_app (l1 l2 : list event) : loads (l1 ++ l2) = loads l1 ++ loads l2.
Proof. apply omap_app. Qed.

Lemma toolchain_steps_load_nothing (w : world) (c : test_compile_call)
    (s : state) :
  loads (toolchain_steps w c s) = [].
Proof.
  unfold toolchain_steps, setup_steps.
  by destruct (scratch_dir_exists w s), (compile_outcome w c s).
Qed.

Lemma compile_and_load_loads (w : world) (c : test_compile_call) (s : state) :
  loads (events_since s ((test_compile w c ≫= load w) s).2) =
    match test_compile_result w c s with
    | Return lib_file => [lib_file]
    | Raise _ => []
    end.
Proof.
  rewrite compile_and_load_run.
  destruct (test_compile_result w c s) as [lib_file|e]; cbn [snd];
    rewrite events_since_append_log, ?loads_app,
      toolchain_steps_load_nothing; reflexivity.
Qed.

(** X6. A trial of the framework probes hands to the framework loader the
    shared object it has just linked, and only when both the compile step and
    the link step returned; after a failed compile or link nothing is
    loaded.  The trials of the C++ flags never load anything. *)
Theorem trials_load_what_they_link (w : world) (s : state) :
  (forall lib_dirs cpp_flags tf_libs,
     loads (events_since s (tf_libs_trial w lib_dirs cpp_flags tf_libs s).2) =
       match test_compile_result w (tf_libs_call lib_dirs cpp_flags tf_libs) s
       with
       | Return _ =>
           [shared_object_file w (tf_libs_call lib_dirs cpp_flags tf_libs)]
       | Raise _ => []
       end) /\
  (forall include_dirs lib_dirs libs cpp_flags cxx11_abi,
     loads (events_since s
              (tf_abi_trial w include_dirs lib_dirs libs cpp_flags cxx11_abi
                            s).2) =
       match test_compile_result w
               (tf_abi_call include_dirs lib_dirs libs cpp_flags cxx11_abi) s
       with
       | Return _ =>
           [shared_object_file w
              (tf_abi_call include_dirs lib_dirs libs cpp_flags cxx11_abi)]
       | Raise _ => []
       end) /\
  (forall cpp_flags,
     loads (events_since s (cpp_flags_trial w cpp_flags s).2) = []).
Proof.
  assert (Hfile : forall c,
            match test_compile_result w c s with
            | Return lib_file => [lib_file]
            | Raise _ => []
            end =
            match test_compile_result w c s with
            | Return _ => [shared_object_file w c]
            | Raise _ => []
            end).
  { intros c. unfold test_compile_result.
    destruct (compile_outcome w c s); [done|].
    by destruct (link_outcome w c s). }
  split; [|split]; intros.
  - unfold tf_libs_trial. rewrite <- Hfile. apply compile_and_load_loads.
  - unfold tf_abi_trial. rewrite <- Hfile. apply compile_and_load_loads.
  - rewrite cpp_flags_trial_run. cbn [snd].
    by rewrite events_since_append_log, toolchain_steps_load_nothing.
Qed.

Lemma append_inj_l (d x y : string) : d +:+ x = d +:+ y -> x = y.
Proof.
  induction d as [|ch d IH]; simpl; [done|]. intros [= H]. by apply IH.
Qed.

Lemma path_join_relative_inj (d a b : string) :
  startswith_sep a = false -> startswith_sep b = false ->
  path_join d a = path_join d b -> a = b.
Proof.
  unfold path_join. intros -> ->.
  destruct (negb (truthy d) || endswith_sep d).
  - apply append_inj_l.
  - intros H%append_inj_l. by injection H.
Qed.

(** X7. The trial source of a probe is named after the probe, not after the
    candidate: the candidates of one probe are written one after the other
    to the same file, and the three probes write to three different files,
    whatever the scratch directory. *)
Theorem trial_sources_by_probe (w : world) :
  (forall f1 f2,
     source_file w (cpp_flags_call f1) = source_file w (cpp_flags_call f2)) /\
  (forall d c l1 l2,
     source_file w (tf_libs_call d c l1) =
     source_file w (tf_libs_call d c l2)) /\
  (forall i d l c v1 v2,
     source_file w (tf_abi_call i d l c v1) =
     source_file w (tf_abi_call i d l c v2)) /\
  (forall f d c l,
     source_file w (cpp_flags_call f) <> source_file w (tf_libs_call d c l)) /\
  (forall f i d l c v,
     source_file w (cpp_flags_call f) <> source_file w (tf_abi_call i d l c v))
  /\
  (forall d c l i d' l' c' v,
     source_file w (tf_libs_call d c l) <>
     source_file w (tf_abi_call i d' l' c' v)).
Proof.
  repeat split; intros; try reflexivity;
    unfold source_file; cbn [tc_name tf_libs_call tf_abi_call cpp_flags_call];
    intros H%path_join_relative_inj; done.
Qed.

(** ** The scratch directory *)



Section ScratchDir.
Context (w : world).






















End ScratchDir.


(** ** Discovery of the framework flags *)

(** Without the complete flags interface, [get_tf_flags] is the manual
    discovery: three imports, then the library probe, then the ABI probe. *)
Lemma get_tf_flags_manual_run (w : world) (cpp_flags : list string)
    (s : state) (tf : tensorflow) :
  import_tensorflow w = Imported tf ->
  get_compile_flags tf = None \/ get_link_flags tf = None ->
  get_tf_flags w cpp_flags s =
    match get_tf_libs w [get_lib tf] cpp_flags
            (append_log s [EvImport "tensorflow"; EvImport "tensorflow";
                           EvImport "tensorflow"]) with
    | (Raise e, s2) => (Raise e, s2)
    | (Return tf_libs, s2) =>
        match get_tf_abi w (tf_include_dirs_of tf) [get_lib tf] tf_libs
                         cpp_flags s2 with
        | (Raise e, s3) => (Raise e, s3)
        | (Return tf_abi, s3) =>
            (Return (manual_compile_flags (tf_include_dirs_of tf) tf_abi,
                     manual_link_flags [get_lib tf] tf_libs), s3)
        end
    end.
Proof.
  intros Himp Hmissing.
  assert (Hbody :
    (getattr "get_compile_flags" (get_compile_flags tf) ≫= fun compile_flags =>
     getattr "get_link_flags" (get_link_flags tf) ≫= fun link_flags =>
     mret (compile_flags, link_flags))
      (append_log s [EvImport "tensorflow"]) =
    (Raise (AttributeError
              match get_compile_flags tf with
              | None => "get_compile_flags"
              | Some _ => "get_link_flags"
              end),
     append_log s [EvImport "tensorflow"])).
  { rewrite run_bind.
    destruct (get_compile_flags tf) as [cf|]; cbn [getattr raise mret M_ret].
    - rewrite run_bind. destruct Hmissing as [H|H]; [done|by rewrite H].
    - reflexivity. }
  unfold get_tf_flags, try_except, import_module.
  rewrite !run_bind. cbn [emit]. rewrite Himp. cbn [mret M_ret].
  rewrite Hbody.
  unfold get_tf_include_dirs, get_tf_lib_dirs, import_module.
  rewrite !run_bind. cbn [emit]. rewrite Himp. cbn [mret M_ret].
  rewrite !run_bind. cbn [emit mret M_ret].
  rewrite !append_log_app. cbn [app].
  fold (tf_include_dirs_of tf).
  rewrite run_bind.
  destruct (get_tf_libs w [get_lib tf] cpp_flags _) as [[tf_libs|e] s2];
    [|reflexivity].
  rewrite run_bind.
  destruct (get_tf_abi w (tf_include_dirs_of tf) [get_lib tf] tf_libs
                       cpp_flags s2) as [[tf_abi|e] s3]; reflexivity.
Qed.

Lemma get_tf_libs_trace (w : world) (lib_dirs cpp_flags : list string)
    (s : state) :
  exists l,
    (get_tf_libs w lib_dirs cpp_flags s).2 = append_log s l /\
    trial_calls l =
      map (tf_libs_call lib_dirs cpp_flags)
          (attempted (tf_libs_trial w lib_dirs cpp_flags)
                     [["tensorflow_framework"]; []] s).
Proof.
  destruct (probe_trace w _ _ _ _ _ _
              (get_tf_libs_from_probe w lib_dirs cpp_flags)
              (tf_libs_trial_calls w lib_dirs cpp_flags)
              [["tensorflow_framework"]; []] s) as (l & Hl & Hcalls & _).
  by exists l.
Qed.

Lemma get_tf_abi_trace (w : world)
    (include_dirs lib_dirs libs cpp_flags : list string) (s : state) :
  exists l,
    (get_tf_abi w include_dirs lib_dirs libs cpp_flags s).2 = append_log s l /\
    trial_calls l =
      map (tf_abi_call include_dirs lib_dirs libs cpp_flags)
          (attempted (tf_abi_trial w include_dirs lib_dirs libs cpp_flags)
                     ["0"; "1"] s).
Proof.
  destruct (probe_trace w _ _ _ _ _ _
              (get_tf_abi_from_probe w include_dirs lib_dirs libs cpp_flags)
              (tf_abi_trial_calls w include_dirs lib_dirs libs cpp_flags)
              ["0"; "1"] s) as (l & Hl & Hcalls & _).
  by exists l.
Qed.

Lemma get_tf_libs_return (w : world) (lib_dirs cpp_flags : list string)
    (s s' : state) (tf_libs : list string) :
  get_tf_libs w lib_dirs cpp_flags s = (Return tf_libs, s') ->
  In tf_libs [["tensorflow_framework"]; []].
Proof.
  intros Hrun.
  destruct (probe_return w _ _ _ _ _
              (get_tf_libs_from_probe w lib_dirs cpp_flags) _ _ _ _ Hrun)
    as (c & Hin & ->).
  done.
Qed.

Lemma get_tf_abi_return (w : world)
    (include_dirs lib_dirs libs cpp_flags : list string) (s s' : state)
    (tf_abi : string * string) :
  get_tf_abi w include_dirs lib_dirs libs cpp_flags s = (Return tf_abi, s') ->
  exists v, In v ["0"; "1"] /\ tf_abi = (cxx11_abi_macro, v).
Proof.
  intros Hrun.
  destruct (probe_return w _ _ _ _ _
              (get_tf_abi_from_probe w include_dirs lib_dirs libs cpp_flags)
              _ _ _ _ Hrun)
    as (c & Hin & ->).
  by exists c.
Qed.

Lemma get_tf_flags_manual_form (w : world) (cpp_flags : list string)
    (s : state) (tf : tensorflow) (cf lf : list string) :
  import_tensorflow w = Imported tf ->
  get_compile_flags tf = None \/ get_link_flags tf = None ->
  (get_tf_flags w cpp_flags s).1 = Return (cf, lf) ->
  exists tf_libs v,
    In tf_libs [["tensorflow_framework"]; []] /\
    In v ["0"; "1"] /\
    cf = manual_compile_flags (tf_include_dirs_of tf) (cxx11_abi_macro, v) /\
    lf = manual_link_flags [get_lib tf] tf_libs.
Proof.
  intros Himp Hmissing.
  rewrite (get_tf_flags_manual_run w cpp_flags s tf) by done.
  set (s1 := append_log s _).
  destruct (get_tf_libs w [get_lib tf] cpp_flags s1)
    as [[tf_libs|e] s2] eqn:Hlibs; [|done].
  destruct (get_tf_abi w (tf_include_dirs_of tf) [get_lib tf] tf_libs
                       cpp_flags s2) as [[tf_abi|e] s3] eqn:Habi; [|done].
  intros [= <- <-].
  apply get_tf_libs_return in Hlibs.
  apply get_tf_abi_return in Habi as (v & Hv & ->).
  by exists tf_libs, v.
Qed.

(** X9. The flags interface of the framework is taken whole or not at all.
    When the framework declares both its compile flags and its link flags,
    [get_tf_flags] returns them as they are after the import alone, without
    any trial.  When either is missing, what the framework declares is
    dropped and the manual discovery runs: its first trial is that of the
    library [tensorflow_framework], and the flags it returns are always the
    two [-I] flags of the framework's include directory followed by one
    [-D_GLIBCXX_USE_CXX11_ABI=] flag with value [0] or [1], and the [-L] flag
    of the framework's library directory followed by [-ltensorflow_framework]
    or by nothing. *)
Theorem flags_interface_is_all_or_nothing (w : world)
    (cpp_flags : list string) (s : state) (tf : tensorflow) :
  import_tensorflow w = Imported tf ->
  (forall cf lf,
     get_compile_flags tf = Some cf -> get_link_flags tf = Some lf ->
     get_tf_flags w cpp_flags s =
       (Return (cf, lf), append_log s [EvImport "tensorflow"])) /\
  (get_compile_flags tf = None \/ get_link_flags tf = None ->
   (exists rest,
      trial_calls (events_since s (get_tf_flags w cpp_flags s).2) =
        tf_libs_call [get_lib tf] cpp_flags ["tensorflow_framework"] :: rest)
   /\
   (forall cf lf,
      (get_tf_flags w cpp_flags s).1 = Return (cf, lf) ->
      exists tf_libs v,
        In tf_libs [["tensorflow_framework"]; []] /\
        In v ["0"; "1"] /\
        cf = manual_compile_flags (tf_include_dirs_of tf)
                                  (cxx11_abi_macro, v) /\
        lf = manual_link_flags [get_lib tf] tf_libs)).
Proof.
  intros Himp. split.
  { intros cf lf Hcf Hlf. by apply get_tf_flags_declared with tf. }
  intros Hmissing. split.
  2:{ intros cf lf. by apply get_tf_flags_manual_form. }
  rewrite (get_tf_flags_manual_run w cpp_flags s tf) by done.
  set (s1 := append_log s _).
  destruct (get_tf_libs_trace w [get_lib tf] cpp_flags s1)
    as (l1 & Hl1 & Hcalls1).
  destruct (attempted_head (tf_libs_trial w [get_lib tf] cpp_flags)
              ["tensorflow_framework"] [[]] s1) as (more & Hmore).
  rewrite Hmore in Hcalls1. cbn [map] in Hcalls1.
  destruct (get_tf_libs w [get_lib tf] cpp_flags s1) as [[tf_libs|e] s2];
    cbn [snd] in Hl1; subst s2.
  2:{ eexists. cbn [snd]. unfold s1.
      rewrite append_log_app, events_since_append_log, trial_calls_app.
      rewrite Hcalls1. reflexivity. }
  destruct (get_tf_abi_trace w (tf_include_dirs_of tf) [get_lib tf] tf_libs
              cpp_flags (append_log s1 l1)) as (l2 & Hl2 & _).
  exists (map (tf_libs_call [get_lib tf] cpp_flags) more ++ trial_calls l2).
  destruct (get_tf_abi w (tf_include_dirs_of tf) [get_lib tf] tf_libs
                       cpp_flags (append_log s1 l1)) as [[tf_abi|e] s3];
    cbn [snd] in Hl2 |- *; subst s3; unfold s1;
    rewrite !append_log_app, events_since_append_log, !trial_calls_app;
    rewrite Hcalls1; reflexivity.
Qed.

Lemma flags_interface_is_all_or_nothing_witness :
  get_tf_flags plain_world default_flags initial_state =
    (Return (["-Iinc"], ["-Lfw"; "-lfw"]),
     append_log initial_state [EvImport "tensorflow"]) /\
  (get_tf_flags half_declaring_world default_flags initial_state).1 =
    Return (["-I/tf/include"; "-I/tf/include/external/nsync/public";
             "-D_GLIBCXX_USE_CXX11_ABI=0"],
            ["-L/tf"; "-ltensorflow_framework"]) /\
  exists rest,
    trial_calls (events_since initial_state
                   (get_tf_flags half_declaring_world default_flags
                                 initial_state).2) =
      tf_libs_call ["/tf"] default_flags ["tensorflow_framework"] :: rest.
Proof.
  split; [|split].
  - destruct (flags_interface_is_all_or_nothing plain_world default_flags
                initial_state (tf_declaring "1.15.0") eq_refl)
      as [Hdeclared _].
    apply Hdeclared; reflexivity.
  - vm_compute. reflexivity.
  - destruct (flags_interface_is_all_or_nothing half_declaring_world
                default_flags initial_state tf_half_declaring eq_refl)
      as [_ Hmanual].
    destruct Hmanual as [Hfirst _]; [by right | exact Hfirst].
Defined.

(** X10. The ABI probe is run on what the library probe found: in the
    manual discovery, when the library probe has returned [tf_libs], every
    trial that follows is an ABI trial compiled with the framework's two
    include directories and linked in its library directory against exactly
    [tf_libs], with the given C++ flags; there is at least one and there are
    at most two. *)
Theorem abi_probe_uses_probed_libraries (w : world) (cpp_flags : list string)
    (s s2 : state) (tf : tensorflow) (tf_libs : list string) :
  import_tensorflow w = Imported tf ->
  get_compile_flags tf = None \/ get_link_flags tf = None ->
  get_tf_libs w [get_lib tf] cpp_flags
    (append_log s [EvImport "tensorflow"; EvImport "tensorflow";
                   EvImport "tensorflow"]) = (Return tf_libs, s2) ->
  exists tried,
    trial_calls (events_since s2 (get_tf_flags w cpp_flags s).2) =
      map (tf_abi_call (tf_include_dirs_of tf) [get_lib tf] tf_libs cpp_flags)
          tried /\
    (tried = ["0"] \/ tried = ["0"; "1"]).
Proof.
  intros Himp Hmissing Hlibs.
  rewrite (get_tf_flags_manual_run w cpp_flags s tf), Hlibs by done.
  destruct (get_tf_abi_trace w (tf_include_dirs_of tf) [get_lib tf] tf_libs
              cpp_flags s2) as (l2 & Hl2 & Hcalls).
  exists (attempted
            (tf_abi_trial w (tf_include_dirs_of tf) [get_lib tf] tf_libs
                          cpp_flags) ["0"; "1"] s2).
  split; [|apply attempted_two].
  destruct (get_tf_abi w (tf_include_dirs_of tf) [get_lib tf] tf_libs
                       cpp_flags s2) as [[tf_abi|e] s3];
    cbn [snd] in Hl2 |- *; subst s3;
    by rewrite events_since_append_log.
Qed.

Lemma abi_probe_uses_probed_libraries_witness :
  exists tried,
    trial_calls
      (events_since
         (get_tf_libs legacy_world ["/tf"] default_flags
            (append_log initial_state
               [EvImport "tensorflow"; EvImport "tensorflow";
                EvImport "tensorflow"])).2
         (get_tf_flags legacy_world default_flags initial_state).2) =
      map (tf_abi_call ["/tf/include"; "/tf/include/external/nsync/public"]
                       ["/tf"] [] default_flags) tried /\
    (tried = ["0"] \/ tried = ["0"; "1"]).
Proof.
  apply (abi_probe_uses_probed_libraries legacy_world default_flags
           initial_state _ (tf_legacy "1.3.0") []).
  - reflexivity.
  - by left.
  - vm_compute. reflexivity.
Defined.

(** X11. The probes of the manual discovery are gated one on the other: when
    the trial of the library [tensorflow_framework] fails and the trial
    without library, made next, fails too, [get_tf_flags] raises the
    [DistutilsPlatformError] of the library probe with the reason recorded
    for the second trial, in the state in which that trial ended and after
    these two trials only: the ABI probe is not started. *)
Theorem failed_library_probe_stops_discovery (w : world)
    (cpp_flags : list string) (s : state) (tf : tensorflow) (e1 e2 : exn) :
  let s0 := append_log s [EvImport "tensorflow"; EvImport "tensorflow";
                          EvImport "tensorflow"] in
  let first :=
    tf_libs_trial w [get_lib tf] cpp_flags ["tensorflow_framework"] s0 in
  let second := tf_libs_trial w [get_lib tf] cpp_flags [] first.2 in
  import_tensorflow w = Imported tf ->
  get_compile_flags tf = None \/ get_link_flags tf = None ->
  first.1 = Raise e1 -> is_Exception e1 = true ->
  second.1 = Raise e2 -> is_Exception e2 = true ->
  get_tf_flags w cpp_flags s =
    (Raise (DistutilsPlatformError
              (Some (record_reason w tf_libs_see_above tf_libs_last_error
                                   e2))),
     second.2) /\
  trial_calls (events_since s second.2) =
    [tf_libs_call [get_lib tf] cpp_flags ["tensorflow_framework"];
     tf_libs_call [get_lib tf] cpp_flags []].
Proof.
  cbv zeta. intros Himp Hmissing Hfirst He1 Hsecond He2.
  rewrite (get_tf_flags_manual_run w cpp_flags s tf) by done.
  set (s0 := append_log s _) in *.
  assert (Hpre : fail_in_turn (tf_libs_trial w [get_lib tf] cpp_flags)
                   [["tensorflow_framework"]] s0 =
                 Some (tf_libs_trial w [get_lib tf] cpp_flags
                                     ["tensorflow_framework"] s0).2).
  { simpl. destruct (tf_libs_trial w _ _ ["tensorflow_framework"] s0)
      as [[u|e] s1]; [discriminate|].
    cbn [fst snd] in *. injection Hfirst as ->. by rewrite He1. }
  destruct (probe_last_reason w _ _ _ _ _ _
              (get_tf_libs_from_probe w [get_lib tf] cpp_flags)
              (tf_libs_trial_calls w [get_lib tf] cpp_flags)
              [["tensorflow_framework"]] [] e2 s0 _ Hpre Hsecond He2)
    as [Hrun Hcalls].
  cbn [app] in Hrun. unfold get_tf_libs. rewrite Hrun. split; [done|].
  destruct (probe_trace w _ _ _ _ _ _
              (get_tf_libs_from_probe w [get_lib tf] cpp_flags)
              (tf_libs_trial_calls w [get_lib tf] cpp_flags)
              [["tensorflow_framework"]; []] s0) as (l & Hl & _).
  rewrite Hrun in Hl. cbn [snd] in Hl. rewrite Hl in Hcalls |- *.
  rewrite events_since_append_log in Hcalls.
  unfold s0. rewrite append_log_app, events_since_append_log.
  by rewrite trial_calls_app, Hcalls.
Qed.

Lemma failed_library_probe_stops_discovery_witness :
  (get_tf_flags hopeless_world default_flags initial_state).1 =
    Raise (DistutilsPlatformError
             (Some (tf_libs_last_error +:+
                    "NotFoundError: undefined symbol"))) /\
  trial_calls (events_since initial_state
                 (get_tf_flags hopeless_world default_flags
                               initial_state).2) =
    [tf_libs_call ["/tf"] default_flags ["tensorflow_framework"];
     tf_libs_call ["/tf"] default_flags []].
Proof.
  destruct (failed_library_probe_stops_discovery hopeless_world default_flags
              initial_state (tf_legacy "1.3.0")
              (LinkError "cannot find -ltensorflow_framework")
              (OtherException "NotFoundError" "undefined symbol"))
    as [Hrun Hcalls];
    try (vm_compute; reflexivity); [by left|].
  rewrite Hrun. split; [reflexivity | exact Hcalls].
Defined.

Lemma is_abi_flag_include (d : string) :
  is_abi_flag ("-I" +:+ d) = str_in cxx11_abi_macro d.
Proof. reflexivity. Qed.

Lemma is_abi_flag_define (v : string) :
  is_abi_flag ("-D" +:+ cxx11_abi_macro +:+ "=" +:+ v) = true.
Proof. reflexivity. Qed.

Lemma abi_flags_manual (incs : list string) (v : string) :
  abi_flags (manual_compile_flags incs (cxx11_abi_macro, v)) =
    map (fun d => "-I" +:+ d) (List.filter (str_in cxx11_abi_macro) incs)
    ++ ["-D_GLIBCXX_USE_CXX11_ABI=" +:+ v].
Proof.
  unfold manual_compile_flags. rewrite abi_flags_app. f_equal.
  unfold abi_flags. induction incs as [|d incs IH]; [done|].
  cbn [map List.filter]. rewrite is_abi_flag_include.
  destruct (str_in cxx11_abi_macro d); cbn [map]; by rewrite IH.
Qed.

(** X12. In the manual discovery the ABI flags that [build_tf_extension]
    hands on are read off the composed compile flags by a substring test:
    they always end with the [-D_GLIBCXX_USE_CXX11_ABI=] flag of the ABI
    value found, [0] or [1], and before it come the [-I] flags of those
    include directories whose path contains the name of the macro, if any. *)
Theorem manual_discovery_abi_flags (w : world) (options : BuildOptions)
    (s s' : state) (abi : list string) (tf : tensorflow) :
  import_tensorflow w = Imported tf ->
  get_compile_flags tf = None \/ get_link_flags tf = None ->
  build_tf_extension w options s = (Return abi, s') ->
  exists v,
    In v ["0"; "1"] /\
    abi =
      map (fun d => "-I" +:+ d)
          (List.filter (str_in "_GLIBCXX_USE_CXX11_ABI")
                       (tf_include_dirs_of tf))
      ++ ["-D_GLIBCXX_USE_CXX11_ABI=" +:+ v].
Proof.
  intros Himp Hmissing Hrun.
  destruct (build_tf_extension_trace w options s)
    as (l1 & l2 & _ & _ & _ & _ & Hres).
  rewrite Hrun in Hres. cbn [fst] in Hres.
  destruct Hres as (cf & lf & _ & -> & _ & s1 & s2 & Hflags).
  destruct (get_tf_flags_manual_form w (COMPILE_FLAGS options) s1 tf cf lf)
    as (tf_libs & v & _ & Hv & -> & _); [done | done | by rewrite Hflags |].
  exists v. split; [done|]. apply abi_flags_manual.
Qed.

Lemma manual_discovery_abi_flags_witness :
  exists v,
    In v ["0"; "1"] /\
    ["-D_GLIBCXX_USE_CXX11_ABI=1"] =
      map (fun d => "-I" +:+ d)
          (List.filter (str_in "_GLIBCXX_USE_CXX11_ABI")
                       (tf_include_dirs_of (tf_legacy "1.3.0")))
      ++ ["-D_GLIBCXX_USE_CXX11_ABI=" +:+ v].
Proof.
  apply (manual_discovery_abi_flags legacy_world plain_options
           (get_common_options legacy_world initial_state).2
           (build_tf_extension legacy_world plain_options
              (get_common_options legacy_world initial_state).2).2
           ["-D_GLIBCXX_USE_CXX11_ABI=1"] (tf_legacy "1.3.0")).
  - reflexivity.
  - by left.
  - vm_compute. reflexivity.
Defined.

(** ** Order and settings of the builds *)

(** The builds of the framework step, whatever its outcome. *)
Lemma build_tf_extension_builds (w : world) (options : BuildOptions)
    (s : state) :
  exists l,
    log (build_tf_extension w options s).2 = log s ++ l /\
    stderr l = [] /\
    common_lib (build_tf_extension w options s).2 = common_lib s /\
    numpy_lib (build_tf_extension w options s).2 = numpy_lib s /\
    name (tf_lib (build_tf_extension w options s).2) = name (tf_lib s) /\
    (builds l = [] \/
     exists cf lf,
       builds l = [(Tf_lib, tf_lib_settings options cf lf (tf_lib s))]) /\
    (forall abi, (build_tf_extension w options s).1 = Return abi ->
                 builds l <> []).
Proof.
  rewrite build_tf_extension_run.
  destruct (emits_check_tf_version w s) as (l1 & Hl1 & HP1).
  destruct (check_tf_version w s) as [[[]|e] s1]; cbn [snd] in Hl1; subst s1.
  2:{ exists l1. cbn. rewrite probe_steps_no_stderr, probe_steps_no_builds
        by done. repeat split; auto; intros ? [=]. }
  destruct (emits_get_tf_flags w (COMPILE_FLAGS options) (append_log s l1))
    as (l2 & Hl2 & HP2).
  destruct (get_tf_flags w (COMPILE_FLAGS options) (append_log s l1))
    as [[[cf lf]|e] s2]; cbn [snd] in Hl2; subst s2.
  2:{ exists (l1 ++ l2). rewrite append_log_app. cbn.
      rewrite stderr_app, builds_app, !probe_steps_no_stderr,
        !probe_steps_no_builds by done.
      repeat split; auto; intros ? [=]. }
  cbv zeta. rewrite append_log_app.
  cbn [fst snd log common_lib numpy_lib tf_lib append_log].
  exists ((l1 ++ l2) ++
          [EvBuildExtension Tf_lib (tf_lib_settings options cf lf (tf_lib s))]).
  rewrite !stderr_app, !builds_app, !probe_steps_no_stderr,
    !probe_steps_no_builds by done.
  rewrite <- !app_assoc. cbn.
  repeat split; eauto; intros ? _ [=].
Qed.

Lemma build_core_and_numpy_run (w : world) (options : BuildOptions)
    (abi : list string) (s : state) :
  exists l,
    log (build_core_and_numpy w options abi s).2 = log s ++ l /\
    builds l = core_and_numpy_builds w options abi s /\
    stderr l = [] /\
    ((build_core_and_numpy w options abi s).1 = Return tt ->
     built l = [Common_lib; Numpy_lib]) /\
    (built l = [Common_lib] \/ built l = [Common_lib; Numpy_lib]).
Proof.
  destruct (core_and_numpy_trace w options abi s)
    as (l & Hl & Hbuilds & Hquiet & _).
  exists l. split; [done|]. split; [done|]. split; [done|].
  unfold built. rewrite Hbuilds.
  unfold build_core_and_numpy, core_and_numpy_builds.
  rewrite run_bind, run_build_common_extension. cbv zeta.
  destruct (build_extension w Common_lib _) as [e|]; cbn [result_of].
  - split; [discriminate | by left].
  - rewrite run_build_numpy_extension.
    destruct (import_numpy w) as [msg|inc]; cbn.
    + split; [discriminate | by left].
    + split; [done | by right].
Qed.

Lemma built_app (l1 l2 : list event) : built (l1 ++ l2) = built l1 ++ built l2.
Proof. unfold built. by rewrite builds_app, map_app. Qed.

Lemma cpp_steps_not_built (l : list event) :
  forallb is_cpp_probe_step l = true -> built l = [].
Proof. intros H. unfold built. by rewrite cpp_steps_no_builds. Qed.

(** X13. Each extension is built at most once in a run, and always in the
    same order: the framework plugin first, then the core library, then the
    wrapper, the wrapper never without the core library before it.  A run
    that returns has built the core library and the wrapper; a run with
    [JPEG2DCT_WITHOUT_TENSORFLOW] set has not built the plugin. *)
Theorem builds_are_ordered (w : world) (s : state) :
  let run := build_extensions w s in
  let l := events_since s run.2 in
  (built l = [] \/ built l = [Tf_lib] \/
   built l = [Common_lib] \/ built l = [Common_lib; Numpy_lib] \/
   built l = [Tf_lib; Common_lib] \/
   built l = [Tf_lib; Common_lib; Numpy_lib]) /\
  (run.1 = Return tt ->
   built l = [Common_lib; Numpy_lib] \/
   built l = [Tf_lib; Common_lib; Numpy_lib]) /\
  (environ_flag w "JPEG2DCT_WITHOUT_TENSORFLOW" = true ->
   ~ In Tf_lib (built l)).
Proof.
  cbv zeta. rewrite build_extensions_run.
  destruct (emits_get_common_options w s) as (l0 & Hl0 & HP0).
  apply cpp_steps_not_built in HP0.
  destruct (get_common_options w s) as [[options|e] s1];
    cbn [snd] in Hl0; subst s1.
  2:{ cbn [fst snd]. rewrite events_since_append_log, HP0.
      split; [by left|]. split; [discriminate|]. by intros _ []. }
  destruct (environ_flag w "JPEG2DCT_WITHOUT_TENSORFLOW").
  { destruct (build_core_and_numpy_run w options [] (append_log s l0))
      as (l3 & Hl3 & _ & _ & Hret & Hcases).
    cbn [log append_log] in Hl3. rewrite <- app_assoc in Hl3.
    rewrite (events_since_log _ _ _ Hl3), built_app, HP0. cbn [app].
    split; [|split].
    - destruct Hcases as [-> | ->]; auto.
    - intros Hr. left. by apply Hret.
    - intros _. destruct Hcases as [-> | ->]; simpl; intuition discriminate. }
  destruct (build_tf_extension_builds w options (append_log s l0))
    as (l1 & Hl1 & _ & _ & _ & _ & Htf & Hdone).
  assert (Htf' : built l1 = [] \/ built l1 = [Tf_lib]).
  { unfold built. destruct Htf as [-> | (cf & lf & ->)]; auto. }
  cbn [log append_log] in Hl1. rewrite <- app_assoc in Hl1.
  destruct (build_tf_extension w options (append_log s l0))
    as [[abi|e] s2]; cbn [fst snd] in Hl1, Hdone.
  - assert (Hplugin : built l1 = [Tf_lib]).
    { destruct Htf' as [Hnone | Hone]; [|done].
      exfalso. apply (Hdone abi eq_refl).
      unfold built in Hnone. by apply map_eq_nil in Hnone. }
    destruct (build_core_and_numpy_run w options abi s2)
      as (l3 & Hl3 & _ & _ & Hret & Hcases).
    rewrite Hl1, <- !app_assoc in Hl3.
    rewrite (events_since_log _ _ _ Hl3), !built_app, HP0, Hplugin.
    cbn [app]. split; [|split].
    + destruct Hcases as [-> | ->]; auto 10.
    + intros Hr. right. by rewrite (Hret Hr).
    + discriminate.
  - destruct (environ_flag w "JPEG2DCT_WITH_TENSORFLOW").
    + cbn [fst snd]. rewrite (events_since_log _ _ _ Hl1), built_app, HP0.
      cbn [app]. split; [|split]; [|discriminate|discriminate].
      destruct Htf' as [-> | ->]; auto.
    + destruct (build_core_and_numpy_run w options []
                  (append_log s2 [EvPrintStderr (skip_message w e)]))
        as (l3 & Hl3 & _ & _ & Hret & Hcases).
      cbn [log append_log] in Hl3. rewrite Hl1, <- !app_assoc in Hl3.
      rewrite (events_since_log _ _ _ Hl3), !built_app, HP0.
      change (built (EvPrintStderr (skip_message w e) :: l3))
        with (built l3).
      cbn [app]. split; [|split]; [| |discriminate].
      * destruct Htf' as [-> | ->], Hcases as [-> | ->]; cbn [app]; auto 10.
      * intros Hr. rewrite (Hret Hr).
        destruct Htf' as [-> | ->]; cbn [app]; auto.
Qed.

(** X14. The orchestrator writes to stderr at most once in a run, and what
    it writes is the notice that the plugin is skipped: this happens exactly
    when the framework step was entered, raised, and
    [JPEG2DCT_WITH_TENSORFLOW] is not set; the notice carries the traceback
    of what the step raised. *)
Theorem skip_notice_is_printed_once (w : world) (s : state) :
  let l := events_since s (build_extensions w s).2 in
  (stderr l = [] \/ exists e, stderr l = [skip_message w e]) /\
  (stderr l <> [] <->
   exists options s1 e s2,
     get_common_options w s = (Return options, s1) /\
     environ_flag w "JPEG2DCT_WITHOUT_TENSORFLOW" = false /\
     build_tf_extension w options s1 = (Raise e, s2) /\
     environ_flag w "JPEG2DCT_WITH_TENSORFLOW" = false /\
     stderr l = [skip_message w e]).
Proof.
  cbv zeta. split.
  all: rewrite build_extensions_run.
  all: destruct (emits_get_common_options w s) as (l0 & Hl0 & HP0).
  all: apply cpp_steps_no_stderr in HP0.
  all: destruct (get_common_options w s) as [[options|e] s1];
         cbn [snd] in Hl0; subst s1.
  all: try (cbn [fst snd]; rewrite events_since_append_log, HP0).
  2:{ by left. }
  3:{ split; [done|]. by intros (? & ? & ? & ? & [=] & _). }
  all: destruct (environ_flag w "JPEG2DCT_WITHOUT_TENSORFLOW") eqn:Hoff.
  all: try (destruct (build_core_and_numpy_run w options [] (append_log s l0))
              as (l3 & Hl3 & _ & Hq3 & _);
            cbn [log append_log] in Hl3; rewrite <- app_assoc in Hl3;
            rewrite (events_since_log _ _ _ Hl3), stderr_app, HP0, Hq3).
  1:{ by left. }
  2:{ split; [done|]. by intros (? & ? & ? & ? & _ & [=] & _). }
  all: destruct (build_tf_extension_builds w options (append_log s l0))
         as (l1 & Hl1 & Hq1 & _).
  all: cbn [log append_log] in Hl1; rewrite <- app_assoc in Hl1.
  all: destruct (build_tf_extension w options (append_log s l0))
         as [[abi|e] s2] eqn:Htf; cbn [fst snd] in Hl1.
  - destruct (build_core_and_numpy_run w options abi s2)
      as (l3 & Hl3 & _ & Hq3 & _).
    rewrite Hl1, <- !app_assoc in Hl3.
    rewrite (events_since_log _ _ _ Hl3), !stderr_app, HP0, Hq1, Hq3.
    by left.
  - destruct (environ_flag w "JPEG2DCT_WITH_TENSORFLOW").
    + cbn [snd].
      rewrite (events_since_log _ _ _ Hl1), !stderr_app, HP0, Hq1. by left.
    + destruct (build_core_and_numpy_run w options []
                  (append_log s2 [EvPrintStderr (skip_message w e)]))
        as (l3 & Hl3 & _ & Hq3 & _).
      cbn [log append_log] in Hl3. rewrite Hl1, <- !app_assoc in Hl3.
      rewrite (events_since_log _ _ _ Hl3), !stderr_app, HP0, Hq1.
      change (stderr (EvPrintStderr (skip_message w e) :: l3))
        with (skip_message w e :: stderr l3).
      rewrite Hq3. right. by exists e.
  - destruct (build_core_and_numpy_run w options abi s2)
      as (l3 & Hl3 & _ & Hq3 & _).
    rewrite Hl1, <- !app_assoc in Hl3.
    rewrite (events_since_log _ _ _ Hl3), !stderr_app, HP0, Hq1, Hq3.
    split; [done|].
    intros (o & s1 & e & s2' & [= <- <-] & _ & Hraise & _).
    rewrite Htf in Hraise. discriminate.
  - destruct (environ_flag w "JPEG2DCT_WITH_TENSORFLOW") eqn:Hreq.
    + cbn [snd].
      rewrite (events_since_log _ _ _ Hl1), !stderr_app, HP0, Hq1.
      split; [done|]. by intros (? & ? & ? & ? & _ & _ & _ & [=] & _).
    + destruct (build_core_and_numpy_run w options []
                  (append_log s2 [EvPrintStderr (skip_message w e)]))
        as (l3 & Hl3 & _ & Hq3 & _).
      cbn [log append_log] in Hl3. rewrite Hl1, <- !app_assoc in Hl3.
      rewrite (events_since_log _ _ _ Hl3), !stderr_app, HP0, Hq1.
      change (stderr (EvPrintStderr (skip_message w e) :: l3))
        with (skip_message w e :: stderr l3).
      rewrite Hq3. split; [|done]. intros _.
      exists options, (append_log s l0), e, s2. by rewrite Htf.
Qed.

Lemma plugin_well_configured (w : world) (s s1 : state)
    (cpp_flags cf lf : list string) :
  name (tf_lib s1) = name (tf_lib s) ->
  well_configured w s cpp_flags
    (Tf_lib,
     tf_lib_settings
       (mkOptions [] (get_conda_include_dir w) [] cpp_flags [] [] [])
       cf lf (tf_lib s1)).
Proof.
  intros Hname. unfold well_configured. cbn.
  repeat split; auto; try done.
  - exists []. cbn. by rewrite ?app_nil_r.
  - by exists cf.
Qed.

Lemma core_and_numpy_well_configured (w : world) (s s2 : state)
    (cpp_flags abi : list string) :
  common_lib s2 = common_lib s ->
  numpy_lib s2 = numpy_lib s ->
  Forall (well_configured w s cpp_flags)
    (core_and_numpy_builds w
       (mkOptions [] (get_conda_include_dir w) [] cpp_flags [] [] [])
       abi s2).
Proof.
  intros Hcore Hwrap. unfold core_and_numpy_builds. cbv zeta.
  rewrite Hcore, Hwrap. constructor.
  - unfold well_configured. cbn. repeat split; auto.
    + exists []. cbn. by rewrite ?app_nil_r.
    + by exists abi.
  - destruct (build_extension w Common_lib _); [constructor|].
    destruct (import_numpy w) as [msg|numpy_include]; constructor;
      [|constructor].
    unfold well_configured. cbn. repeat split; auto.
    + by exists [numpy_include].
    + by exists abi.
Qed.

(** X15. Every build of a run is made after the baseline probe returned,
    and with the fixed settings of its extension: the name it was declared
    with, its one source file, the library [jpeg] for the core library and
    none for the others, no macro, no library directory, link flags only for
    the plugin, the conda include directory first among the include
    directories and the baseline flags first among the compile flags. *)
Theorem builds_are_well_configured (w : world) (s : state) :
  Forall
    (fun b =>
       exists cpp_flags s1,
         get_cpp_flags w s = (Return cpp_flags, s1) /\
         well_configured w s cpp_flags b)
    (builds (events_since s (build_extensions w s).2)).
Proof.
  rewrite build_extensions_run.
  destruct (emits_get_common_options w s) as (l0 & Hl0 & HP0).
  apply cpp_steps_no_builds in HP0.
  destruct (get_common_options w s) as [[options|e] s1] eqn:Hoptions;
    cbn [snd] in Hl0.
  2:{ subst s1. cbn [fst snd]. rewrite events_since_append_log, HP0.
      constructor. }
  destruct (get_common_options_return _ _ _ _ Hoptions)
    as (cpp_flags & Hcpp & ->).
  cut (Forall (well_configured w s cpp_flags)
         (builds (events_since s
            (if environ_flag w "JPEG2DCT_WITHOUT_TENSORFLOW"
             then build_core_and_numpy w
                    (mkOptions [] (get_conda_include_dir w) [] cpp_flags
                               [] [] []) [] s1
             else
               match build_tf_extension w
                       (mkOptions [] (get_conda_include_dir w) [] cpp_flags
                                  [] [] []) s1 with
               | (Return abi, s2) =>
                   build_core_and_numpy w
                     (mkOptions [] (get_conda_include_dir w) [] cpp_flags
                                [] [] []) abi s2
               | (Raise e, s2) =>
                   if environ_flag w "JPEG2DCT_WITH_TENSORFLOW"
                   then (Raise e, s2)
                   else
                     build_core_and_numpy w
                       (mkOptions [] (get_conda_include_dir w) [] cpp_flags
                                  [] [] []) []
                       (append_log s2 [EvPrintStderr (skip_message w e)])
               end).2))).
  { intros H. induction H; constructor; eauto. }
  subst s1. set (options := mkOptions _ _ _ _ _ _ _).
  destruct (environ_flag w "JPEG2DCT_WITHOUT_TENSORFLOW").
  { destruct (build_core_and_numpy_run w options [] (append_log s l0))
      as (l3 & Hl3 & Hb3 & _).
    cbn [log append_log] in Hl3. rewrite <- app_assoc in Hl3.
    rewrite (events_since_log _ _ _ Hl3), builds_app, HP0, Hb3. cbn [app].
    by apply core_and_numpy_well_configured. }
  destruct (build_tf_extension_builds w options (append_log s l0))
    as (l1 & Hl1 & _ & Hcore & Hwrap & Hname & Htf & _).
  cbn [log append_log] in Hl1. rewrite <- app_assoc in Hl1.
  assert (Hplugin : Forall (well_configured w s cpp_flags) (builds l1)).
  { destruct Htf as [-> | (cf & lf & ->)]; constructor; [|constructor].
    by apply plugin_well_configured. }
  destruct (build_tf_extension w options (append_log s l0))
    as [[abi|e] s2]; cbn [fst snd] in Hl1, Hcore, Hwrap.
  - destruct (build_core_and_numpy_run w options abi s2)
      as (l3 & Hl3 & Hb3 & _).
    rewrite Hl1, <- !app_assoc in Hl3.
    rewrite (events_since_log _ _ _ Hl3), !builds_app, HP0, Hb3.
    cbn [app]. apply Forall_app. split; [done|].
    by apply core_and_numpy_well_configured.
  - destruct (environ_flag w "JPEG2DCT_WITH_TENSORFLOW").
    + cbn [snd]. rewrite (events_since_log _ _ _ Hl1), builds_app, HP0.
      done.
    + destruct (build_core_and_numpy_run w options []
                  (append_log s2 [EvPrintStderr (skip_message w e)]))
        as (l3 & Hl3 & Hb3 & _).
      cbn [log append_log] in Hl3. rewrite Hl1, <- !app_assoc in Hl3.
      rewrite (events_since_log _ _ _ Hl3), !builds_app, HP0.
      change (builds (EvPrintStderr (skip_message w e) :: l3))
        with (builds l3).
      rewrite Hb3. cbn [app]. apply Forall_app. split; [done|].
      by apply core_and_numpy_well_configured.
Qed.

(** ** Failures of the core library and of the wrapper *)

Lemma core_and_numpy_failure (w : world) (options : BuildOptions)
    (abi : list string) (s : state) (id : ext_id) (ext : Extension)
    (e : exn) :
  In (id, ext) (core_and_numpy_builds w options abi s) ->
  build_extension w id ext = Some e ->
  (build_core_and_numpy w options abi s).1 = Raise e.
Proof.
  unfold build_core_and_numpy, core_and_numpy_builds.
  rewrite run_bind, run_build_common_extension. cbv zeta.
  intros [[= <- <-] | Hwrapper] Hfails.
  { by rewrite Hfails. }
  destruct (build_extension w Common_lib _) as [e'|]; [done|].
  cbn [result_of]. rewrite run_build_numpy_extension. cbn [numpy_lib].
  destruct (import_numpy w) as [msg|inc]; [done|].
  destruct Hwrapper as [[= <- <-] | []]. cbn [fst]. by rewrite Hfails.
Qed.

(** X16. A failed build of the core library or of the wrapper is never
    swallowed: when [build_extension] raises on one of them, the run raises
    that exception, whatever the framework settings are. *)
Theorem failed_core_or_wrapper_build_is_fatal (w : world) (s : state)
    (id : ext_id) (ext : Extension) (e : exn) :
  In (id, ext) (builds (events_since s (build_extensions w s).2)) ->
  id <> Tf_lib ->
  build_extension w id ext = Some e ->
  (build_extensions w s).1 = Raise e.
Proof.
  rewrite build_extensions_run. intros Hin Hid Hfails.
  destruct (emits_get_common_options w s) as (l0 & Hl0 & HP0).
  apply cpp_steps_no_builds in HP0.
  destruct (get_common_options w s) as [[options|e0] s1];
    cbn [snd] in Hl0; subst s1.
  2:{ cbn [fst snd] in Hin.
      by rewrite events_since_append_log, HP0 in Hin. }
  destruct (environ_flag w "JPEG2DCT_WITHOUT_TENSORFLOW").
  { destruct (build_core_and_numpy_run w options [] (append_log s l0))
      as (l3 & Hl3 & Hb3 & _).
    cbn [log append_log] in Hl3. rewrite <- app_assoc in Hl3.
    rewrite (events_since_log _ _ _ Hl3), builds_app, HP0, Hb3 in Hin.
    by apply (core_and_numpy_failure _ _ _ _ id ext). }
  destruct (build_tf_extension_builds w options (append_log s l0))
    as (l1 & Hl1 & _ & _ & _ & _ & Htf & _).
  cbn [log append_log] in Hl1. rewrite <- app_assoc in Hl1.
  assert (Hplugin : ~ In (id, ext) (builds l1)).
  { destruct Htf as [-> | (cf & lf & ->)]; [by intros []|].
    intros [[= <- _] | []]. done. }
  destruct (build_tf_extension w options (append_log s l0))
    as [[abi|e1] s2]; cbn [fst snd] in Hl1.
  - destruct (build_core_and_numpy_run w options abi s2)
      as (l3 & Hl3 & Hb3 & _).
    rewrite Hl1, <- !app_assoc in Hl3.
    rewrite (events_since_log _ _ _ Hl3), !builds_app, HP0, Hb3 in Hin.
    cbn [app] in Hin. apply in_app_or in Hin as [Hin | Hin]; [done|].
    by apply (core_and_numpy_failure _ _ _ _ id ext).
  - destruct (environ_flag w "JPEG2DCT_WITH_TENSORFLOW").
    + cbn [snd] in Hin.
      by rewrite (events_since_log _ _ _ Hl1), builds_app, HP0 in Hin.
    + destruct (build_core_and_numpy_run w options []
                  (append_log s2 [EvPrintStderr (skip_message w e1)]))
        as (l3 & Hl3 & Hb3 & _).
      cbn [log append_log] in Hl3. rewrite Hl1, <- !app_assoc in Hl3.
      rewrite (events_since_log _ _ _ Hl3), !builds_app, HP0 in Hin.
      change (builds (EvPrintStderr (skip_message w e1) :: l3))
        with (builds l3) in Hin.
      rewrite Hb3 in Hin. cbn [app] in Hin.
      apply in_app_or in Hin as [Hin | Hin]; [done|].
      by apply (core_and_numpy_failure _ _ _ _ id ext).
Qed.

Lemma failed_core_or_wrapper_build_is_fatal_witness :
  (build_extensions wrapper_fails_world initial_state).1 =
    Raise (CompileError "dctfromjpg_wrap.cc").
Proof.
  eapply (failed_core_or_wrapper_build_is_fatal wrapper_fails_world
            initial_state Numpy_lib).
  - cbv. right. right. left. reflexivity.
  - discriminate.
  - reflexivity.
Defined.

(** ** Which versions pass the version check *)

(** X17. The version check looks at the leading characters of
    [__version__] only: a version that starts with ['1.1.0'] passes,
    whatever follows (so does a release candidate of 1.1.0), and a version
    that starts with ['0'] or with ['1.0'] is refused with the message that
    names it. *)
Theorem version_check_by_leading_characters (w : world) (s : state)
    (tf : tensorflow) (v rest : string) :
  import_tensorflow w = Imported tf ->
  tf_version tf = Some v ->
  (v = "1.1.0" +:+ rest -> (check_tf_version w s).1 = Return tt) /\
  (v = "0" +:+ rest \/ v = "1.0" +:+ rest ->
   (check_tf_version w s).1 =
     Raise (DistutilsPlatformError (Some
       ("Your TensorFlow version " +:+ v +:+
        " is outdated.  Horovod requires tensorflow>=1.1.0")))).
Proof.
  intros Himp Hv. rewrite check_tf_version_run, Himp, Hv. cbn [fst].
  split.
  - intros ->.
    assert (Hlt : str_lt ("1.1.0" +:+ rest) "1.1.0" = false)
      by (by destruct rest).
    by rewrite Hlt.
  - intros Hold.
    assert (Hlt : str_lt v "1.1.0" = true)
      by (by destruct Hold as [-> | ->]).
    by rewrite Hlt.
Qed.

Lemma version_check_by_leading_characters_witness :
  (check_tf_version outdated_world initial_state).1 =
    Raise (DistutilsPlatformError (Some
      "Your TensorFlow version 1.0.1 is outdated.  Horovod requires tensorflow>=1.1.0")).
Proof.
  apply (version_check_by_leading_characters outdated_world initial_state
           (tf_legacy "1.0.1") "1.0.1" ".1");
    [reflexivity | reflexivity | right; reflexivity].
Defined.
